(** * Phase-field prediction with UNets: dataset indexer and training driver

    A shallow embedding of

    - [src/pipeline/dataset/loaders.py]: class [H5Dataset], the windowed
      multi-run dataset over an HDF5 store, and
    - [src/train_model.py]: the epoch loop of [main] with its periodic
      validation, best-model checkpoint and final save,

    together with the properties of both that can be stated over the
    embedding.

    Conventions.  Python integers are [Z].  The entries of the NumPy array
    [group_boundaries] are partial sums of in-memory array lengths minus
    [skip]; they are kept as exact integers.  Python exceptions are values
    of [exn]; a computation that may raise returns a [result].  Methods
    that read [self], and code that talks to the file system, live in a
    small state-and-exception monad [M]. *)

From Stdlib Require Import ZArith List String Ascii Bool Lia.
From Stdlib Require Import QArith DecimalString.
From Stdlib Require DecimalZ.
Import ListNotations.

Local Open Scope string_scope.
Local Open Scope list_scope.
Local Open Scope Z_scope.

Set Implicit Arguments.

(* ================================================================== *)
(** * Python values, exceptions and the monad                          *)
(* ================================================================== *)

Module Py.

(** The exceptions the two source files can raise, directly or through
    the libraries they call. *)
Inductive exn : Type :=
| ValueError (msg : string)
| IndexError
| KeyError (key : string)
| FileNotFoundError (file : string)
| ZeroDivisionError.

Inductive result (A : Type) : Type :=
| Ok (a : A)
| Raise (e : exn).

Arguments Ok {A} a.
Arguments Raise {A} e.

Definition rbind {A B} (r : result A) (k : A -> result B) : result B :=
  match r with
  | Ok a => k a
  | Raise e => Raise e
  end.

(** [[f(x) for x in l]] when [f] may raise: the first exception wins. *)
Fixpoint rmap {A B} (f : A -> result B) (l : list A) : result (list B) :=
  match l with
  | [] => Ok []
  | x :: t => rbind (f x) (fun y => rbind (rmap f t) (fun ys => Ok (y :: ys)))
  end.

(** State and exceptions: the state reached when an exception is raised
    is kept, as the effects of a Python statement are. *)
Definition M (S A : Type) : Type := S -> result A * S.

Definition ret {S A} (a : A) : M S A := fun s => (Ok a, s).

Definition raise {S A} (e : exn) : M S A := fun s => (Raise e, s).

Definition bind {S A B} (m : M S A) (k : A -> M S B) : M S B :=
  fun s =>
    match m s with
    | (Ok a, s') => k a s'
    | (Raise e, s') => (Raise e, s')
    end.

(** Reading an attribute of the state ([self.x]). *)
Definition gets {S A} (f : S -> A) : M S A := fun s => (Ok (f s), s).

Definition modify {S} (f : S -> S) : M S unit := fun s => (Ok tt, f s).

(** A computation that only may raise. *)
Definition lift {S A} (r : result A) : M S A := fun s => (r, s).

Definition run {S A} (m : M S A) (s : S) : result A * S := m s.

(** A computation that leaves the state as it found it, whether it
    returns or raises. *)
Definition read_only {S A} (m : M S A) : Prop :=
  forall s, snd (m s) = s.

(** [len(l)] *)
Definition len {A} (l : list A) : Z := Z.of_nat (List.length l).

(** Indexing a sequence of [n] items with an integer: a negative index
    counts from the end, anything outside [-n, n) raises [IndexError].
    Python lists, NumPy arrays and h5py datasets agree on this. *)
Definition getitem {A} (l : list A) (k : Z) : result A :=
  let k' := if k <? 0 then k + len l else k in
  if (0 <=? k') && (k' <? len l) then
    match nth_error l (Z.to_nat k') with
    | Some x => Ok x
    | None => Raise IndexError
    end
  else Raise IndexError.

(** [x in l] for strings *)
Definition str_in (x : string) (l : list string) : bool :=
  existsb (String.eqb x) l.

(** [f'{n}'] for an integer [n] *)
Definition str_of_int (n : Z) : string :=
  NilEmpty.string_of_int (Z.to_int n).

(** [a % b]: the remainder has the sign of the divisor, as [Z.modulo]. *)
Definition mod_ (a b : Z) : result Z :=
  if b =? 0 then Raise ZeroDivisionError else Ok (a mod b).

End Py.

Export Py.

Declare Scope py_scope.
Delimit Scope py_scope with py.
Notation "x <- m ;; k" := (bind m (fun x => k))
  (at level 61, m at next level, right associativity) : py_scope.
Notation "m ;;; k" := (bind m (fun _ => k))
  (at level 61, right associativity) : py_scope.
Local Open Scope py_scope.

(* ================================================================== *)
(** * The two NumPy functions the dataset uses                         *)
(* ================================================================== *)

Module Np.

(** [np.cumsum]: running sums, one per element. *)
Fixpoint cumsum_from (acc : Z) (l : list Z) : list Z :=
  match l with
  | [] => []
  | x :: t => (acc + x) :: cumsum_from (acc + x) t
  end.

Definition cumsum (l : list Z) : list Z := cumsum_from 0 l.

(** [np.searchsorted(a, x, side='right')] on an ascending array: the
    insertion point after the entries [<= x].  NumPy finds it by bisection;
    on an ascending array that is the List.length of the leading run of entries
    [<= x]. *)
Fixpoint searchsorted_right (a : list Z) (x : Z) : Z :=
  match a with
  | [] => 0
  | y :: t => if y <=? x then 1 + searchsorted_right t x else 0
  end.

(** [_monotonicity(bins)] of [np.digitize] (check_array_monotonic):
    [1] for an ascending array (also when all entries are equal), [-1]
    for a descending one, [0] otherwise. *)
Fixpoint skip_repeated (last : Z) (a : list Z) : list Z :=
  match a with
  | [] => []
  | x :: t => if x =? last then skip_repeated last t else a
  end.

Fixpoint never_descends (last : Z) (a : list Z) : bool :=
  match a with
  | [] => true
  | next :: t => if last >? next then false else never_descends next t
  end.

Fixpoint never_ascends (last : Z) (a : list Z) : bool :=
  match a with
  | [] => true
  | next :: t => if last <? next then false else never_ascends next t
  end.

Definition monotonicity (a : list Z) : Z :=
  match a with
  | [] => 1
  | last :: t =>
      match skip_repeated last t with
      | [] => 1
      | next :: rest =>
          if last <? next
          then (if never_descends next rest then 1 else 0)
          else (if never_ascends next rest then -1 else 0)
      end
  end.

(** [np.digitize(x, bins, right=False)] for a scalar [x]. *)
Definition digitize (x : Z) (bins : list Z) : result Z :=
  let mono := monotonicity bins in
  if mono =? 0 then
    Raise (ValueError "bins must be monotonically increasing or decreasing")
  else if mono =? -1 then
    Ok (len bins - searchsorted_right (rev bins) x)
  else
    Ok (searchsorted_right bins x).

End Np.

(* ================================================================== *)
(** * The HDF5 store                                                   *)
(* ================================================================== *)

Module H5.

Section Store.

(** The stored scalar type (the store's floating-point numbers). *)
Variable F : Type.

(** One field snapshot: an [H x W] array. *)
Definition snapshot : Type := list (list F).

(** A group is one simulation run.  Each of its named datasets may be
    missing from a malformed store. *)
Record group : Type := Group {
  time : option (list F);
  field_values : option (list snapshot);
  x_coordinates : option snapshot;
  y_coordinates : option snapshot
}.

(** A file opened for reading: its groups by name, in the order in which
    [keys()] lists them. *)
Definition file : Type := list (string * group).

Definition keys (f : file) : list string := map fst f.

(** [f[name]] *)
Definition get_group (f : file) (name : string) : result group :=
  match find (fun p => String.eqb (fst p) name) f with
  | Some p => Ok (snd p)
  | None => Raise (KeyError name)
  end.

(** [g[name]] for a dataset that may be absent *)
Definition get_dataset {A} (d : option A) (name : string) : result A :=
  match d with
  | Some a => Ok a
  | None => Raise (KeyError name)
  end.

End Store.

End H5.

(* ================================================================== *)
(** * src/pipeline/dataset/loaders.py                                  *)
(* ================================================================== *)

Module Loaders.

Section H5Dataset.

(** Stored scalars, [torch.float32] scalars, and the conversion that
    [torch.from_numpy(a).to(torch.float32)] applies to each entry. *)
Variables F F32 : Type.
Variable to_float32 : F -> F32.

(** The files on disk that [h5py.File] can open, by path. *)
Variable fs : string -> option (H5.file F).

(** A [(H, W)] tensor and a [(C, H, W)] tensor. *)
Definition tensor2 : Type := list (list F32).
Definition tensor3 : Type := list tensor2.

(** The attributes of an [H5Dataset] object ([dtype] is the constant
    [torch.float32] and is carried by [to_float32]). *)
Record H5Dataset : Type := Build_H5Dataset {
  path : string;
  skip : Z;
  mode : string;
  h5f : H5.file F;
  group_names : list string;
  group_boundaries : list Z;
  n_groups : Z
}.

(** [h5py.File(name, 'r')].  The state is the log of the calls made. *)
Definition h5py_File (name : string) : M (list string) (H5.file F) :=
  modify (fun log => log ++ [name]) ;;;
  match fs name with
  | Some f => ret f
  | None => raise (FileNotFoundError name)
  end.

(** [[f(x) for x in l]] *)
Fixpoint comprehension {S A B} (f : A -> M S B) (l : list A)
  : M S (list B) :=
  match l with
  | [] => ret []
  | x :: t =>
      y <- f x ;;
      ys <- comprehension f t ;;
      ret (y :: ys)
  end.

(** [len(h5f[g]['time'][:])] *)
Definition time_steps (f : H5.file F) (g : string) : result Z :=
  rbind (H5.get_group f g) (fun grp =>
  rbind (H5.get_dataset (H5.time grp) "time") (fun t =>
  Ok (len t))).

(** [H5Dataset.__init__(self, path, mode, skip)] *)
Definition __init__ (path mode : string) (skip : Z)
  : M (list string) H5Dataset :=
  if negb (str_in mode ["train"; "valid"; "test"]) then
    raise (ValueError "mode must be one of 'train', 'valid', or 'test'")
  else
    h5f <- h5py_File (path ++ "/" ++ mode ++ "_data.h5")%string ;;
    let group_names := H5.keys h5f in
    counts <- comprehension
                (fun g => n <- lift (time_steps h5f g) ;; ret (n - skip))
                group_names ;;
    let group_boundaries := Np.cumsum ([0] ++ counts) in
    ret {| path := path; skip := skip; mode := mode; h5f := h5f;
           group_names := group_names;
           group_boundaries := group_boundaries;
           n_groups := len group_names |}.

(** [H5Dataset.__len__(self)] *)
Definition __len__ : M H5Dataset Z :=
  bounds <- gets group_boundaries ;;
  lift (getitem bounds (-1)).

(** Lines 137-138 of [__getitem__]: the group and the index within it. *)
Definition locate (index : Z) : M H5Dataset (Z * Z) :=
  bounds <- gets group_boundaries ;;
  d <- lift (Np.digitize index bounds) ;;
  let group_id := d - 1 in
  b <- lift (getitem bounds group_id) ;;
  let index_within_group := index - b in
  ret (group_id, index_within_group).

(** [torch.from_numpy(
       self.h5f[self.group_names[group_id]]['field_values'][k]
     ).to(self.dtype)] *)
Definition read_field (group_id k : Z) : M H5Dataset tensor2 :=
  f <- gets h5f ;;
  names <- gets group_names ;;
  name <- lift (getitem names group_id) ;;
  grp <- lift (H5.get_group f name) ;;
  fv <- lift (H5.get_dataset (H5.field_values grp) "field_values") ;;
  a <- lift (getitem fv k) ;;
  ret (map (map to_float32) a).

(** [t[None, :, :]] for a two-dimensional [t] *)
Definition add_channel (t : tensor2) : tensor3 := [t].

(** [H5Dataset.__getitem__(self, index)] *)
Definition __getitem__ (index : Z) : M H5Dataset (tensor3 * tensor3) :=
  loc <- locate index ;;
  let '(group_id, index_within_group) := loc in
  field_data <- read_field group_id index_within_group ;;
  skip <- gets skip ;;
  next_field_data <- read_field group_id (index_within_group + skip) ;;
  ret (add_channel field_data, add_channel next_field_data).

(** The lengths of the runs: [len(h5f[g]['time'])] for each group, in the
    order of [group_names]. *)
Definition run_lengths (ds : H5Dataset) : result (list Z) :=
  rmap (time_steps (h5f ds)) (group_names ds).

(** [group_boundaries[r]] for [0 <= r <= n_groups] *)
Definition boundary (ds : H5Dataset) (r : Z) : Z :=
  nth (Z.to_nat r) (group_boundaries ds) 0.

(** The stored snapshots of run [r]. *)
Definition run_fields (ds : H5Dataset) (r : Z) : list (H5.snapshot F) :=
  match H5.get_group (h5f ds) (nth (Z.to_nat r) (group_names ds) "") with
  | Ok grp =>
      match H5.field_values grp with
      | Some fv => fv
      | None => []
      end
  | Raise _ => []
  end.

End H5Dataset.

(** A concrete store for examples: run number [r] has [T] steps, and its
    snapshot at step [k] is the [1 x 2] array holding [r] and [k]. *)
Definition demo_run (r T : nat) : H5.group Z :=
  {| H5.time := Some (map Z.of_nat (seq 0 T));
     H5.field_values :=
       Some (map (fun k => [[Z.of_nat r; Z.of_nat k]]) (seq 0 T));
     H5.x_coordinates := Some [[0]];
     H5.y_coordinates := Some [[0]] |}.

Fixpoint demo_groups (r : nat) (lengths : list nat)
  : list (string * H5.group Z) :=
  match lengths with
  | [] => []
  | T :: t =>
      (("run" ++ str_of_int (Z.of_nat r))%string, demo_run r T)
        :: demo_groups (S r) t
  end.

Definition demo_file (lengths : list nat) : H5.file Z :=
  demo_groups 0 lengths.

(** A disk that holds one training file. *)
Definition demo_fs (lengths : list nat) (name : string)
  : option (H5.file Z) :=
  if String.eqb name "data/train_data.h5" then Some (demo_file lengths)
  else None.

Definition demo_init (lengths : list nat) (skip : Z)
  : result (H5Dataset Z) * list string :=
  run (__init__ (demo_fs lengths) "data" "train" skip) [].

Definition demo_dataset (lengths : list nat) (skip : Z) : H5Dataset Z :=
  match fst (demo_init lengths skip) with
  | Ok ds => ds
  | Raise _ =>
      {| path := ""; skip := skip; mode := ""; h5f := [];
         group_names := []; group_boundaries := [0]; n_groups := 0 |}
  end.

End Loaders.


(* ================================================================== *)
(** * src/train_model.py                                               *)
(* ================================================================== *)

Module TrainModel.

(** A Python float as far as [<] can tell: the finite values are
    rationals; [nan] compares false with everything. *)
Inductive float : Type :=
| Finite (q : Q)
| PosInf
| NegInf
| NaN.

Definition Qltb (a b : Q) : bool := negb (Qle_bool b a).

(** [a < b] on floats *)
Definition float_lt (a b : float) : bool :=
  match a, b with
  | NaN, _ | _, NaN => false
  | _, NegInf => false
  | PosInf, _ => false
  | NegInf, _ => true
  | Finite _, PosInf => true
  | Finite x, Finite y => Qltb x y
  end.

(** The parsed command line, as far as the control flow and the file
    names of [main] depend on it. *)
Record Namespace : Type := {
  batch_size : Z;
  time_skip : Z;
  n_epochs : Z;
  valid_freq : Z;
  log_freq : Z
}.

(** [datetime.now()] *)
Record datetime : Type := {
  month : Z;
  day : Z;
  hour : Z;
  minute : Z
}.

(** What [main] does to the outside.  [epoch] is the value of the loop
    variable when the call is made; the final save is made after the loop
    and has none. *)
Inductive effect : Type :=
| MakeDirs (path : string)
| TrainStep (epoch step : Z)
| ValidPhase (epoch : Z) (val_loss : float)
| TorchSave (epoch : option Z) (file : string)
| SchedulerStep (epoch : Z) (val_loss : float).

(** The state of [main]: its local variable [min_val_loss] and the effects
    so far. *)
Record state : Type := {
  min_val_loss : float;
  trace : list effect
}.

Definition emit (e : effect) : M state unit :=
  modify (fun st => {| min_val_loss := min_val_loss st;
                       trace := trace st ++ [e] |}).

Definition set_min_val_loss (v : float) : M state unit :=
  modify (fun st => {| min_val_loss := v; trace := trace st |}).

(** [range(n)] *)
Definition range (n : Z) : list Z := map Z.of_nat (seq 0 (Z.to_nat n)).

(** [for x in l: body(x)] *)
Fixpoint for_each {S A} (l : list A) (body : A -> M S unit) : M S unit :=
  match l with
  | [] => ret tt
  | x :: t => body x ;;; for_each t body
  end.

(** [setup_directories(timestring, args)] *)
Definition setup_directories (timestring : string) (args : Namespace)
  : M state (string * string * string) :=
  let model_path := ("model_" ++ timestring)%string in
  let log_path := (model_path ++ "/log")%string in
  let save_path :=
    (model_path ++ "/model_savetime_" ++ timestring
       ++ "_batchsize_" ++ str_of_int (batch_size args)
       ++ "_timeskip_" ++ str_of_int (time_skip args) ++ ".pt")%string in
  emit (MakeDirs model_path) ;;;
  emit (MakeDirs log_path) ;;;
  ret (save_path, model_path, log_path).

(** Lines 114-117 of [main]: the time stamp in the file names. *)
Definition timestring_of (date_time : datetime) : string :=
  (str_of_int (month date_time) ++ str_of_int (day date_time)
     ++ str_of_int (hour date_time) ++ str_of_int (minute date_time))%string.

Section Main.

(** The framework's side: the number of mini-batches per epoch
    ([len(train_loader)]) and the mean validation loss that the
    validation phase of each epoch computes. *)
Variable n_train_batches : Z.
Variable valid_loss_at : Z -> float.

Variable args : Namespace.

(** The file of the best-model checkpoint (line 217). *)
Definition checkpoint_file (model_path : string) : string :=
  (model_path ++ "/checkpoint_model_tskip_"
     ++ str_of_int (time_skip args) ++ ".pt")%string.

(** Lines 187-196: the training phase of one epoch.  The loss is logged
    when [step % args.log_freq == 0]. *)
Definition train_batch (epoch step : Z) : M state unit :=
  emit (TrainStep epoch step) ;;;
  m <- lift (mod_ step (log_freq args)) ;;
  ret tt.

Definition train_phase (epoch : Z) : M state unit :=
  for_each (range n_train_batches) (train_batch epoch).

(** Lines 198-222: validation, checkpoint and scheduler. *)
Definition valid_phase (model_path : string) (epoch : Z) : M state unit :=
  m <- lift (mod_ epoch (valid_freq args)) ;;
  if m =? 0 then
    let val_loss := valid_loss_at epoch in
    emit (ValidPhase epoch val_loss) ;;;
    best <- gets min_val_loss ;;
    (if float_lt val_loss best then
       emit (TorchSave (Some epoch) (checkpoint_file model_path)) ;;;
       set_min_val_loss val_loss
     else ret tt) ;;;
    emit (SchedulerStep epoch val_loss)
  else ret tt.

(** The body of the epoch loop. *)
Definition epoch_body (model_path : string) (epoch : Z) : M state unit :=
  train_phase epoch ;;;
  valid_phase model_path epoch.

(** [main(args)], from the directories on.  The data sets, the model,
    the optimizer and the scheduler are built before the loop by the
    framework; none of that writes a model file or touches
    [min_val_loss]. *)
Definition main (date_time : datetime) : M state unit :=
  let timestring := timestring_of date_time in
  paths <- setup_directories timestring args ;;
  let '(save_path, model_path, log_path) := paths in
  set_min_val_loss PosInf ;;;
  for_each (range (n_epochs args)) (epoch_body model_path) ;;;
  emit (TorchSave None save_path).

End Main.

(** The files written by [torch.save], in order, with the epoch of each. *)
Fixpoint saves (tr : list effect) : list (option Z * string) :=
  match tr with
  | [] => []
  | TorchSave epoch file :: t => (epoch, file) :: saves t
  | _ :: t => saves t
  end.

(** The epochs in which [file] was written. *)
Definition epochs_saving (file : string) (tr : list effect) : list Z :=
  flat_map (fun s => match fst s with
                     | Some epoch =>
                         if String.eqb (snd s) file then [epoch] else []
                     | None => []
                     end)
           (saves tr).

(** How many times [file] was written. *)
Definition times_saved (file : string) (tr : list effect) : nat :=
  List.length (filter (fun s => String.eqb (snd s) file) (saves tr)).

(** A run from scratch. *)
Definition initial : state := {| min_val_loss := NaN; trace := [] |}.

(** The validation losses of an example run, epoch by epoch. *)
Definition losses_at (losses : list float) (epoch : Z) : float :=
  nth (Z.to_nat epoch) losses NaN.

Definition demo_args (epochs freq : Z) : Namespace :=
  {| batch_size := 64; time_skip := 25; n_epochs := epochs;
     valid_freq := freq; log_freq := 1 |}.

Definition demo_time : datetime :=
  {| month := 11; day := 3; hour := 9; minute := 5 |}.

End TrainModel.

(* ================================================================== *)
(** * The notions in which the properties are stated                   *)
(* ================================================================== *)

Module LoadersSpec.

(** [sum(l)] *)
Definition sum (l : list Z) : Z := fold_right Z.add 0 l.


(** The per-run counts the constructor accumulates. *)
Definition counts (skip : Z) (Ls : list Z) : list Z :=
  map (fun L => L - skip) Ls.

(** An array whose entries never decrease. *)
Definition ascending (a : list Z) : Prop :=
  forall p q : nat, (p <= q < List.length a)%nat -> nth p a 0 <= nth q a 0.

(** A run whose snapshots and time values are parallel sequences. *)
Definition consistent_run {F} (grp : H5.group F) : Prop :=
  match H5.time grp, H5.field_values grp with
  | Some t, Some fv => List.length fv = List.length t
  | _, _ => False
  end.

Definition well_formed_store {F} (f : H5.file F) : Prop :=
  Forall (fun p => consistent_run (snd p)) f.

End LoadersSpec.

Module TrainSpec.

Import TrainModel.

(** The two paths [setup_directories] hands to [main]. *)
Definition model_path_of (date_time : datetime) : string :=
  ("model_" ++ timestring_of date_time)%string.

Definition save_path_of (args : Namespace) (date_time : datetime) : string :=
  (model_path_of date_time ++ "/model_savetime_" ++ timestring_of date_time
     ++ "_batchsize_" ++ str_of_int (batch_size args)
     ++ "_timeskip_" ++ str_of_int (time_skip args) ++ ".pt")%string.

Definition is_nan (x : float) : bool :=
  match x with
  | NaN => true
  | _ => false
  end.

(** The state with best-seen value [best] after the further effects
    [delta]. *)
Definition after (st : state) (best : float) (delta : list effect) : state :=
  {| min_val_loss := best; trace := trace st ++ delta |}.

Section Trace.

Variable n_train_batches : Z.
Variable valid_loss_at : Z -> float.
Variable args : Namespace.
Variable model_path : string.

(** Validation runs in [epoch]. *)
Definition validates (epoch : Z) : bool :=
  epoch mod valid_freq args =? 0.

(** Validation runs in [epoch] and its loss is strictly below [best]. *)
Definition improves (best : float) (epoch : Z) : bool :=
  validates epoch && float_lt (valid_loss_at epoch) best.

(** The best-seen value after [epoch]. *)
Definition next_best (best : float) (epoch : Z) : float :=
  if improves best epoch then valid_loss_at epoch else best.

Definition train_effects (epoch : Z) : list effect :=
  map (TrainStep epoch) (range n_train_batches).

(** The effects of one epoch entered with best-seen value [best]. *)
Definition epoch_effects (best : float) (epoch : Z) : list effect :=
  train_effects epoch ++
  (if validates epoch then
     [ValidPhase epoch (valid_loss_at epoch)] ++
     (if float_lt (valid_loss_at epoch) best
      then [TorchSave (Some epoch) (checkpoint_file args model_path)]
      else []) ++
     [SchedulerStep epoch (valid_loss_at epoch)]
   else []).

Fixpoint loop_effects (best : float) (epochs : list Z) : list effect :=
  match epochs with
  | [] => []
  | e :: t => epoch_effects best e ++ loop_effects (next_best best e) t
  end.

(** The best-seen value after a run of epochs. *)
Definition best_after (best : float) (epochs : list Z) : float :=
  fold_left next_best epochs best.

(** The epochs whose validation loss is strictly below the best seen
    before them. *)
Fixpoint records (best : float) (epochs : list Z) : list Z :=
  match epochs with
  | [] => []
  | e :: t =>
      if improves best e then e :: records (valid_loss_at e) t
      else records best t
  end.

(** The loss of [epoch] is strictly below [+inf] and strictly below
    every loss validated in the epochs [earlier]; a [nan] among those is
    passed over. *)
Definition beats (epoch : Z) (earlier : list Z) : bool :=
  float_lt (valid_loss_at epoch) PosInf &&
  forallb (fun e => negb (validates e) || is_nan (valid_loss_at e)
                    || float_lt (valid_loss_at epoch) (valid_loss_at e))
          earlier.

End Trace.

(** The effects of a whole run of [main]. *)
Definition main_effects (n_train_batches : Z) (valid_loss_at : Z -> float)
    (args : Namespace) (date_time : datetime) : list effect :=
  [MakeDirs (model_path_of date_time);
   MakeDirs (model_path_of date_time ++ "/log")%string] ++
  loop_effects n_train_batches valid_loss_at args (model_path_of date_time)
    PosInf (range (n_epochs args)) ++
  [TorchSave None (save_path_of args date_time)].

End TrainSpec.

(* ================================================================== *)
(** * The rest of the two files                                        *)
(* ================================================================== *)

(** The accessors of [H5Dataset] beside [__getitem__]. *)
Module Accessors.

Import Loaders.

Section Accessors.

Variables F F32 : Type.
Variable to_float32 : F -> F32.

(** [self.h5f[self.group_names[group_id]]] *)
Definition group_of (group_id : Z) : M (H5Dataset F) (H5.group F) :=
  f <- gets (@h5f F) ;;
  names <- gets (@group_names F) ;;
  name <- lift (getitem names group_id) ;;
  lift (H5.get_group f name).

(** [H5Dataset.get_meshgrid(self, group_id)]; the default is
    [group_id = 0]. *)
Definition get_meshgrid (group_id : Z)
  : M (H5Dataset F) (tensor2 F32 * tensor2 F32) :=
  grp <- group_of group_id ;;
  x <- lift (H5.get_dataset (H5.x_coordinates grp) "x_coordinates") ;;
  let x_grid := map (map to_float32) x in
  grp' <- group_of group_id ;;
  y <- lift (H5.get_dataset (H5.y_coordinates grp') "y_coordinates") ;;
  let y_grid := map (map to_float32) y in
  ret (x_grid, y_grid).

(** [H5Dataset.get_simulation(self, group_id)]: the times and the field
    as a [(T, 1, H, W)] tensor. *)
Definition get_simulation (group_id : Z)
  : M (H5Dataset F) (list F32 * list (tensor3 F32)) :=
  grp <- group_of group_id ;;
  t <- lift (H5.get_dataset (H5.time grp) "time") ;;
  let times := map to_float32 t in
  grp' <- group_of group_id ;;
  fv <- lift (H5.get_dataset (H5.field_values grp') "field_values") ;;
  let field := map (map (map to_float32)) fv in
  ret (times, map (fun a => [a]) field).

End Accessors.

End Accessors.

(** [calculate_parameters] of [train_model.py]. *)
Module Params.




End Params.

(** Further notions for stating properties. *)
Module MoreSpec.

Import Loaders TrainModel TrainSpec.

(** A disk that holds the training file [f], and the dataset built on
    it. *)
Definition demo_fs_holding (f : H5.file Z) (name : string)
  : option (H5.file Z) :=
  if String.eqb name "data/train_data.h5" then Some f else None.

Definition demo_dataset_on (f : H5.file Z) (skip : Z) : H5Dataset Z :=
  match fst (run (__init__ (demo_fs_holding f) "data" "train" skip) []) with
  | Ok ds => ds
  | Raise _ =>
      {| path := ""; skip := skip; mode := ""; h5f := [];
         group_names := []; group_boundaries := [0]; n_groups := 0 |}
  end.

(** A store whose only run has five time values and no snapshots. *)
Definition demo_file_without_fields : H5.file Z :=
  [("run0", {| H5.time := Some [0; 1; 2; 3; 4];
               H5.field_values := None;
               H5.x_coordinates := None;
               H5.y_coordinates := None |})].

(** A store whose second run has no time values. *)
Definition demo_file_without_time : H5.file Z :=
  [("run0", demo_run 0 4);
   ("run1", {| H5.time := None;
               H5.field_values := Some [[[0]]; [[1]]];
               H5.x_coordinates := None;
               H5.y_coordinates := None |})].

(** The group carries a [time] dataset. *)
Definition has_time {F} (grp : H5.group F) : bool :=
  match H5.time grp with
  | Some _ => true
  | None => false
  end.

(** Each loss is strictly below the one before it. *)
Fixpoint strictly_falling (l : list float) : bool :=
  match l with
  | a :: (b :: _) as t => float_lt b a && strictly_falling t
  | _ => true
  end.

(** The training steps in a trace. *)
Fixpoint train_steps (tr : list effect) : list (Z * Z) :=
  match tr with
  | [] => []
  | TrainStep epoch step :: t => (epoch, step) :: train_steps t
  | _ :: t => train_steps t
  end.

(** The validations in a trace, each with its mean loss. *)
Fixpoint validations (tr : list effect) : list (Z * float) :=
  match tr with
  | [] => []
  | ValidPhase epoch v :: t => (epoch, v) :: validations t
  | _ :: t => validations t
  end.

(** The calls of [scheduler.step] in a trace, each with its argument. *)
Fixpoint scheduler_steps (tr : list effect) : list (Z * float) :=
  match tr with
  | [] => []
  | SchedulerStep epoch v :: t => (epoch, v) :: scheduler_steps t
  | _ :: t => scheduler_steps t
  end.





End MoreSpec.

Unset Implicit Arguments.

(* ================================================================== *)
(** * Facts about the monad and about indexing                         *)
(* ================================================================== *)

Section MonadFacts.

Context {S : Type}.

Lemma read_only_ret {A} (a : A) : read_only (@ret S A a).
Proof. intro s. reflexivity. Qed.

Lemma read_only_raise {A} (e : exn) : read_only (@raise S A e).
Proof. intro s. reflexivity. Qed.

Lemma read_only_gets {A} (f : S -> A) : read_only (@gets S A f).
Proof. intro s. reflexivity. Qed.

Lemma read_only_lift {A} (r : result A) : read_only (@lift S A r).
Proof. intro s. reflexivity. Qed.

Lemma read_only_bind {A B} (m : M S A) (k : A -> M S B) :
  read_only m -> (forall a, read_only (k a)) -> read_only (bind m k).
Proof.
  intros Hm Hk s. unfold bind.
  specialize (Hm s). destruct (m s) as [[a | e] s1]; simpl in Hm; subst s1.
  - apply Hk.
  - reflexivity.
Qed.

Lemma read_only_run {A} (m : M S A) (s : S) :
  read_only m -> run m s = (fst (m s), s).
Proof.
  intros Hm. unfold run. specialize (Hm s).
  destruct (m s) as [r s1]. simpl in *. now subst.
Qed.

Lemma bind_run {A B} (m : M S A) (k : A -> M S B) (s : S) :
  bind m k s
  = match m s with
    | (Ok a, s') => k a s'
    | (Raise e, s') => (Raise e, s')
    end.
Proof. reflexivity. Qed.

End MonadFacts.

Ltac read_only_tac :=
  repeat first
    [ apply read_only_bind; [ | intro ]
    | apply read_only_ret | apply read_only_raise
    | apply read_only_gets | apply read_only_lift
    | match goal with |- read_only (let '(_, _) := ?p in _) => destruct p end
    | match goal with |- read_only (match ?p with _ => _ end) => destruct p end ].

Section IndexFacts.

Context {A : Type}.

Lemma len_nonneg (l : list A) : 0 <= len l.
Proof. unfold len. lia. Qed.

Lemma getitem_nonneg (l : list A) (k : Z) (d : A) :
  0 <= k < len l -> getitem l k = Ok (nth (Z.to_nat k) l d).
Proof.
  intros H. unfold getitem.
  destruct (Z.ltb_spec k 0); [lia|].
  destruct (Z.leb_spec 0 k); [|lia].
  destruct (Z.ltb_spec k (len l)); [|lia]. simpl.
  assert (Hn : (Z.to_nat k < List.length l)%nat) by (unfold len in *; lia).
  rewrite (nth_error_nth' l d Hn). reflexivity.
Qed.

Lemma getitem_negative (l : list A) (k : Z) (d : A) :
  - len l <= k < 0 -> getitem l k = Ok (nth (Z.to_nat (k + len l)) l d).
Proof.
  intros H. unfold getitem.
  destruct (Z.ltb_spec k 0); [|lia].
  destruct (Z.leb_spec 0 (k + len l)); [|lia].
  destruct (Z.ltb_spec (k + len l) (len l)); [|lia]. simpl.
  assert (Hn : (Z.to_nat (k + len l) < List.length l)%nat)
    by (unfold len in *; lia).
  rewrite (nth_error_nth' l d Hn). reflexivity.
Qed.

Lemma getitem_past_end (l : list A) (k : Z) :
  len l <= k -> getitem l k = Raise IndexError.
Proof.
  intros H. unfold getitem. pose proof (len_nonneg l).
  destruct (Z.ltb_spec k 0); [lia|].
  destruct (Z.ltb_spec k (len l)); [lia|].
  now rewrite andb_false_r.
Qed.

End IndexFacts.

(* ================================================================== *)
(** * Facts about [np.cumsum] and [np.digitize]                        *)
(* ================================================================== *)

Module NpFacts.

Import Np LoadersSpec.

Lemma sum_app (l1 l2 : list Z) : sum (l1 ++ l2) = sum l1 + sum l2.
Proof. induction l1 as [|x t IH]; simpl; lia. Qed.

Lemma cumsum_from_length (acc : Z) (l : list Z) :
  List.length (cumsum_from acc l) = List.length l.
Proof.
  revert acc. induction l as [|x t IH]; intro acc; simpl; [|rewrite IH];
    reflexivity.
Qed.

Lemma cumsum_from_nth (l : list Z) : forall (acc : Z) (k : nat) (d : Z),
  (k < List.length l)%nat ->
  nth k (cumsum_from acc l) d = acc + sum (firstn (S k) l).
Proof.
  induction l as [|x t IH]; intros acc k d Hk; simpl in Hk; [lia|].
  destruct k as [|k].
  - simpl. destruct t; simpl; lia.
  - change (nth (S k) (cumsum_from acc (x :: t)) d)
      with (nth k (cumsum_from (acc + x) t) d).
    rewrite IH by lia.
    change (firstn (S (S k)) (x :: t)) with (x :: firstn (S k) t).
    simpl sum. lia.
Qed.

(** The array [np.cumsum([0] + counts)]. *)
Lemma cumsum_zero_cons (counts : list Z) :
  cumsum ([0] ++ counts) = 0 :: cumsum_from 0 counts.
Proof. reflexivity. Qed.

Lemma boundaries_length (counts : list Z) :
  List.length (cumsum ([0] ++ counts)) = S (List.length counts).
Proof. rewrite cumsum_zero_cons. simpl. now rewrite cumsum_from_length. Qed.

Lemma boundaries_nth (counts : list Z) (k : nat) (d : Z) :
  (k <= List.length counts)%nat ->
  nth k (cumsum ([0] ++ counts)) d = sum (firstn k counts).
Proof.
  intros Hk. rewrite cumsum_zero_cons. destruct k as [|k]; [reflexivity|].
  simpl nth. rewrite cumsum_from_nth by lia. lia.
Qed.

Lemma boundaries_last (counts : list Z) :
  getitem (cumsum ([0] ++ counts)) (-1) = Ok (sum counts).
Proof.
  rewrite (getitem_negative _ _ 0).
  - unfold len. rewrite boundaries_length.
    replace (Z.to_nat (-1 + Z.of_nat (S (List.length counts))))
      with (List.length counts) by lia.
    rewrite boundaries_nth by lia. now rewrite firstn_all.
  - unfold len. rewrite boundaries_length. lia.
Qed.

Lemma boundaries_step (counts : list Z) (k : nat) (d : Z) :
  (k < List.length counts)%nat ->
  nth (S k) (cumsum ([0] ++ counts)) d
  = nth k (cumsum ([0] ++ counts)) d + nth k counts 0.
Proof.
  intros Hk. rewrite !boundaries_nth by lia.
  rewrite <- (firstn_skipn k counts) at 1.
  rewrite firstn_app, firstn_firstn, length_firstn.
  replace (Init.Nat.min (S k) k) with k by lia.
  replace (Init.Nat.min k (List.length counts)) with k by lia.
  replace (S k - k)%nat with 1%nat by lia.
  rewrite sum_app. f_equal.
  rewrite <- (firstn_skipn k counts) at 2.
  rewrite app_nth2; rewrite length_firstn;
    replace (Init.Nat.min k (List.length counts)) with k by lia; [|lia].
  rewrite Nat.sub_diag.
  destruct (skipn k counts) as [|c rest] eqn:E.
  - exfalso. apply (f_equal (@List.length Z)) in E.
    rewrite length_skipn in E. simpl in E. lia.
  - simpl. lia.
Qed.

(** ** Ascending arrays *)

Lemma never_descends_head (x : Z) (t : list Z) :
  never_descends x t = true ->
  forall k, (k < List.length t)%nat -> x <= nth k t 0.
Proof.
  revert x. induction t as [|y t IH]; intros x H k Hk; simpl in Hk; [lia|].
  simpl in H. destruct (Z.gtb_spec x y); [discriminate|].
  destruct k as [|k]; simpl; [lia|].
  specialize (IH y H k). lia.
Qed.

Lemma never_descends_ascending (x : Z) (t : list Z) :
  never_descends x t = true -> ascending (x :: t).
Proof.
  revert x. induction t as [|y t IH]; intros x H p q Hpq.
  - simpl in Hpq. assert (p = 0%nat) by lia. assert (q = 0%nat) by lia.
    subst. lia.
  - pose proof (never_descends_head x (y :: t) H) as Hhead.
    simpl in H. destruct (Z.gtb_spec x y); [discriminate|].
    destruct p as [|p].
    + destruct q as [|q]; [simpl; lia|].
      simpl in Hpq. simpl nth at 1. apply (Hhead q). simpl. lia.
    + destruct q as [|q]; [lia|].
      simpl in Hpq. apply (IH y H p q). simpl. lia.
Qed.

Lemma never_descends_cumsum (counts : list Z) : forall acc,
  Forall (fun c => 0 <= c) counts ->
  never_descends acc (cumsum_from acc counts) = true.
Proof.
  induction counts as [|c t IH]; intros acc H; [reflexivity|].
  inversion H as [|? ? Hc Ht]; subst. simpl.
  destruct (Z.gtb_spec acc (acc + c)); [lia|]. now apply IH.
Qed.

(** ** [_monotonicity] *)

Lemma skip_repeated_never_descends (x : Z) (t : list Z) :
  never_descends x t
  = match skip_repeated x t with
    | [] => true
    | next :: rest => if x >? next then false else never_descends next rest
    end.
Proof.
  induction t as [|y t IH]; [reflexivity|]. simpl.
  destruct (Z.eqb_spec y x) as [->|Hne]; [|reflexivity].
  rewrite <- IH. destruct (Z.gtb_spec x x); [lia|reflexivity].
Qed.

Lemma skip_repeated_cons (x : Z) (t : list Z) (next : Z) (rest : list Z) :
  skip_repeated x t = next :: rest ->
  next <> x /\ exists pre, t = pre ++ next :: rest.
Proof.
  induction t as [|y t IH]; simpl; [discriminate|].
  destruct (Z.eqb_spec y x) as [->|Hne]; intros H.
  - destruct (IH H) as [Hn [pre ->]]. split; [assumption|].
    now exists (x :: pre).
  - injection H as -> ->. split; [assumption|]. now exists [].
Qed.

Lemma monotonicity_ascending (x : Z) (t : list Z) :
  monotonicity (x :: t) = 1 <-> never_descends x t = true.
Proof.
  rewrite skip_repeated_never_descends. unfold monotonicity.
  destruct (skip_repeated x t) as [|next rest] eqn:E; [tauto|].
  destruct (skip_repeated_cons _ _ _ _ E) as [Hne _].
  destruct (Z.ltb_spec x next), (Z.gtb_spec x next); try lia.
  - destruct (never_descends next rest); split; congruence.
  - destruct (never_ascends next rest); split; discriminate.
Qed.

Lemma never_ascends_head (x : Z) (t : list Z) :
  never_ascends x t = true ->
  forall k, (k < List.length t)%nat -> nth k t 0 <= x.
Proof.
  revert x. induction t as [|y t IH]; intros x H k Hk; simpl in Hk; [lia|].
  simpl in H. destruct (Z.ltb_spec x y); [discriminate|].
  destruct k as [|k]; simpl; [lia|].
  specialize (IH y H k). lia.
Qed.

(** A descending array that is not constant ends below its first entry. *)
Lemma monotonicity_descending_last (x : Z) (t : list Z) :
  monotonicity (x :: t) = -1 -> nth (List.length t) (x :: t) 0 < x.
Proof.
  unfold monotonicity.
  destruct (skip_repeated x t) as [|next rest] eqn:E; [discriminate|].
  destruct (skip_repeated_cons _ _ _ _ E) as [Hne [pre ->]].
  destruct (Z.ltb_spec x next).
  - destruct (never_descends next rest); discriminate.
  - destruct (never_ascends next rest) eqn:Hna; [intros _|discriminate].
    rewrite length_app. simpl List.length.
    replace (List.length pre + S (List.length rest))%nat
      with (S (List.length pre + List.length rest)) by lia.
    simpl nth. rewrite app_nth2_plus.
    destruct rest as [|z rest]; simpl List.length.
    + simpl. lia.
    + change (nth (S (List.length rest)) (next :: z :: rest) 0)
        with (nth (List.length rest) (z :: rest) 0).
      pose proof (never_ascends_head next (z :: rest) Hna
                    (List.length rest)) as Hl.
      simpl List.length in Hl. specialize (Hl ltac:(lia)). lia.
Qed.

(** ** [searchsorted] *)

Lemma searchsorted_right_range (a : list Z) (x : Z) :
  0 <= searchsorted_right a x <= len a.
Proof.
  unfold len. induction a as [|y t IH];
    cbn [List.length searchsorted_right]; [lia|].
  rewrite Nat2Z.inj_succ. destruct (Z.leb_spec y x); lia.
Qed.

Lemma searchsorted_right_before (a : list Z) (x : Z) : forall p : nat,
  Z.of_nat p < searchsorted_right a x -> nth p a 0 <= x.
Proof.
  induction a as [|y t IH]; intros p Hp; cbn [searchsorted_right] in Hp;
    [lia|].
  destruct (Z.leb_spec y x); [|lia].
  destruct p as [|p]; [assumption|].
  cbn [nth]. apply IH. lia.
Qed.

Lemma searchsorted_right_at (a : list Z) (x : Z) :
  searchsorted_right a x < len a ->
  x < nth (Z.to_nat (searchsorted_right a x)) a 0.
Proof.
  unfold len. induction a as [|y t IH];
    cbn [List.length searchsorted_right]; [lia|].
  rewrite Nat2Z.inj_succ.
  pose proof (searchsorted_right_range t x) as Hr.
  destruct (Z.leb_spec y x); intros Hlt.
  - replace (Z.to_nat (1 + searchsorted_right t x))
      with (S (Z.to_nat (searchsorted_right t x))) by lia.
    apply IH. lia.
  - simpl. assumption.
Qed.


(** ** [digitize] over the boundaries of a dataset *)

(** When [digitize] returns for an index inside [[0, total)], the
    boundaries are ascending and the index lies in the bucket found. *)
Lemma digitize_bucket (counts : list Z) (i d : Z) :
  let bounds := cumsum ([0] ++ counts) in
  digitize i bounds = Ok d ->
  0 <= i < sum counts ->
  ascending bounds /\
  1 <= d <= len counts /\
  nth (Z.to_nat (d - 1)) bounds 0 <= i < nth (Z.to_nat d) bounds 0.
Proof.
  intros bounds Hd Hi. subst bounds. rewrite cumsum_zero_cons in *.
  set (t := cumsum_from 0 counts) in *.
  assert (Hlen : List.length t = List.length counts)
    by apply cumsum_from_length.
  assert (Hlast : nth (List.length t) (0 :: t) 0 = sum counts).
  { subst t. rewrite <- cumsum_zero_cons, Hlen, boundaries_nth by lia.
    now rewrite firstn_all. }
  unfold digitize in Hd.
  destruct (Z.eqb_spec (monotonicity (0 :: t)) 0); [discriminate|].
  destruct (Z.eqb_spec (monotonicity (0 :: t)) (-1)) as [Hm|Hm].
  { apply monotonicity_descending_last in Hm. lia. }
  assert (Hdk : d = searchsorted_right (0 :: t) i) by congruence.
  clear Hd. subst d.
  assert (Hasc : never_descends 0 t = true).
  { apply monotonicity_ascending. unfold monotonicity in *.
    destruct (skip_repeated 0 t) as [|next rest]; [reflexivity|].
    destruct (0 <? next).
    - destruct (never_descends next rest); [reflexivity|contradiction].
    - destruct (never_ascends next rest); [contradiction|contradiction]. }
  split; [now apply never_descends_ascending|].
  pose proof (searchsorted_right_range (0 :: t) i) as Hr.
  unfold len in *. simpl List.length in Hr.
  set (k := searchsorted_right (0 :: t) i) in *.
  assert (Hk1 : 1 <= k).
  { subst k. cbn [searchsorted_right]. destruct (Z.leb_spec 0 i); [|lia].
    pose proof (searchsorted_right_range t i). lia. }
  assert (Hk2 : k <= Z.of_nat (List.length counts)).
  { destruct (Z.eq_dec k (Z.of_nat (S (List.length t)))) as [E|E]; [|lia].
    pose proof (searchsorted_right_before (0 :: t) i (List.length t)) as Hb.
    fold k in Hb. specialize (Hb ltac:(lia)). lia. }
  split; [lia|]. split.
  - apply searchsorted_right_before. fold k. lia.
  - apply searchsorted_right_at. fold k. unfold len. simpl List.length. lia.
Qed.

(** With no negative count the boundaries are ascending and [digitize]
    returns. *)
Lemma digitize_ascending (counts : list Z) (i : Z) :
  Forall (fun c => 0 <= c) counts ->
  digitize i (cumsum ([0] ++ counts))
  = Ok (searchsorted_right (cumsum ([0] ++ counts)) i).
Proof.
  intros H. rewrite cumsum_zero_cons.
  pose proof (never_descends_cumsum counts 0 H) as Hnd.
  apply monotonicity_ascending in Hnd.
  unfold digitize. now rewrite Hnd.
Qed.

(** In an ascending array an index lies in at most one bucket. *)
Lemma bucket_unique (a : list Z) (i : Z) (r r' : nat) :
  ascending a ->
  (S r < List.length a)%nat -> (S r' < List.length a)%nat ->
  nth r a 0 <= i < nth (S r) a 0 ->
  nth r' a 0 <= i < nth (S r') a 0 ->
  r' = r.
Proof.
  intros Ha Hr Hr' H H'.
  destruct (Nat.lt_trichotomy r' r) as [Hlt | [Heq | Hgt]];
    [exfalso | assumption | exfalso].
  - pose proof (Ha (S r') r ltac:(lia)). lia.
  - pose proof (Ha (S r) r' ltac:(lia)). lia.
Qed.

End NpFacts.

(* ================================================================== *)
(** * Facts about [H5Dataset]                                          *)
(* ================================================================== *)

Module LoadersFacts.

Import Np LoadersSpec NpFacts Loaders.

Lemma str_in_In (x : string) (l : list string) :
  str_in x l = true <-> In x l.
Proof.
  unfold str_in. rewrite existsb_exists. split.
  - intros [y [Hy E]]. apply String.eqb_eq in E. now subst.
  - intros H. exists x. split; [assumption|apply String.eqb_refl].
Qed.

Lemma rmap_ok_nth {A B} (f : A -> result B) (l : list A) :
  forall ys, rmap f l = Ok ys ->
  List.length ys = List.length l /\
  forall (k : nat) (d : A) (d' : B),
    (k < List.length l)%nat -> f (nth k l d) = Ok (nth k ys d').
Proof.
  induction l as [|x t IH]; intros ys H; simpl in H.
  - injection H as <-. split; [reflexivity|]. intros k d d' Hk.
    simpl in Hk. lia.
  - destruct (f x) as [y|e] eqn:Ex; simpl in H; [|discriminate].
    destruct (rmap f t) as [ys'|e]; simpl in H; [|discriminate].
    injection H as <-. destruct (IH ys' eq_refl) as [Hl Hn].
    split; [simpl; now rewrite Hl|].
    intros [|k] d d' Hk; simpl; [assumption|].
    apply Hn. simpl in Hk. lia.
Qed.

Lemma comprehension_pure {S A C} (fm : A -> M S C) (f : A -> result C)
      (l : list A) (s : S) :
  (forall g s, fm g s = (f g, s)) ->
  comprehension fm l s = (rmap f l, s).
Proof.
  intros Hfm. induction l as [|x t IH]; [reflexivity|].
  cbn [comprehension rmap]. unfold bind at 1. rewrite Hfm.
  destruct (f x) as [y|e]; [|reflexivity].
  unfold bind. rewrite IH. cbn [rbind].
  destruct (rmap f t); reflexivity.
Qed.

Lemma rmap_then {A B C} (f : A -> result B) (h : B -> C) (l : list A) :
  rmap (fun g => rbind (f g) (fun n => Ok (h n))) l
  = rbind (rmap f l) (fun ys => Ok (map h ys)).
Proof.
  induction l as [|x t IH]; [reflexivity|].
  cbn [rmap]. rewrite IH. destruct (f x) as [y|e]; [|reflexivity].
  cbn [rbind]. destruct (rmap f t); reflexivity.
Qed.

Lemma comprehension_lift {S A B C} (f : A -> result B) (h : B -> C)
      (l : list A) (s : S) :
  comprehension (fun g => n <- lift (f g) ;; ret (h n)) l s
  = (rbind (rmap f l) (fun ys => Ok (map h ys)), s).
Proof.
  rewrite <- rmap_then. apply comprehension_pure.
  intros g s0. unfold bind, lift, ret. destruct (f g); reflexivity.
Qed.

Section Constructed.

Context {F : Type}.
Variable fs : string -> option (H5.file F).

Lemma h5py_File_run (name : string) (w : list string) :
  h5py_File fs name w
  = (match fs name with
     | Some f => Ok f
     | None => Raise (FileNotFoundError name)
     end, w ++ [name]).
Proof.
  unfold h5py_File. rewrite bind_run. unfold modify.
  destruct (fs name); reflexivity.
Qed.

(** Everything a successful construction establishes. *)
Lemma init_ok (path mode : string) (skip : Z) (w w' : list string)
      (ds : H5Dataset F) :
  run (__init__ fs path mode skip) w = (Ok ds, w') ->
  exists Ls,
    In mode ["train"; "valid"; "test"] /\
    fs (path ++ "/" ++ mode ++ "_data.h5")%string = Some (h5f ds) /\
    w' = w ++ [(path ++ "/" ++ mode ++ "_data.h5")%string] /\
    Loaders.skip ds = skip /\
    group_names ds = H5.keys (h5f ds) /\
    run_lengths ds = Ok Ls /\
    group_boundaries ds = cumsum ([0] ++ counts skip Ls) /\
    n_groups ds = len (group_names ds).
Proof.
  unfold run, __init__.
  destruct (str_in mode ["train"; "valid"; "test"]) eqn:Hmode;
    cbn [negb]; [|discriminate].
  apply str_in_In in Hmode.
  rewrite bind_run, h5py_File_run.
  destruct (fs (path ++ "/" ++ mode ++ "_data.h5")%string) as [f|] eqn:Hf;
    [|discriminate].
  rewrite bind_run, comprehension_lift.
  destruct (rmap (time_steps f) (H5.keys f)) as [Ls|e] eqn:HLs;
    cbn [rbind]; [|discriminate].
  unfold ret. intros H. injection H as <- <-.
  exists Ls. unfold run_lengths. cbn [h5f group_names group_boundaries
    n_groups Loaders.skip]. rewrite HLs. tauto.
Qed.

Lemma rmap_time_steps_raises (f : H5.file F) (names : list string)
      (e : exn) :
  rmap (time_steps f) names = Raise e -> exists key, e = KeyError key.
Proof.
  induction names as [|g t IH]; cbn [rmap]; [discriminate|].
  unfold time_steps at 1, H5.get_group, H5.get_dataset.
  destruct (find _ f) as [p|]; cbn [rbind].
  - destruct (H5.time (snd p)); cbn [rbind].
    + destruct (rmap (time_steps f) t); cbn [rbind]; [discriminate|].
      intros H. injection H as <-. now apply IH.
    + intros H. injection H as <-. now exists "time".
  - intros H. injection H as <-. now exists g.
Qed.

Lemma init_raises_only (path mode : string) (skip : Z) (w : list string)
      (e : exn) :
  In mode ["train"; "valid"; "test"] ->
  fst (run (__init__ fs path mode skip) w) = Raise e ->
  (exists name, e = FileNotFoundError name) \/ (exists key, e = KeyError key).
Proof.
  intros Hmode. apply str_in_In in Hmode.
  unfold run, __init__. rewrite Hmode. cbn [negb].
  rewrite bind_run, h5py_File_run.
  destruct (fs (path ++ "/" ++ mode ++ "_data.h5")%string) as [f|].
  - rewrite bind_run, comprehension_lift.
    destruct (rmap (time_steps f) (H5.keys f)) as [Ls|e'] eqn:HLs;
      cbn [rbind fst]; [discriminate|].
    intros H. injection H as <-. right.
    eapply rmap_time_steps_raises; eassumption.
  - cbn [fst]. intros H. injection H as <-. left. eauto.
Qed.

End Constructed.

Lemma counts_length (sk : Z) (Ls : list Z) :
  List.length (counts sk Ls) = List.length Ls.
Proof. apply length_map. Qed.

Lemma counts_nth (sk : Z) (Ls : list Z) (k : nat) :
  (k < List.length Ls)%nat -> nth k (counts sk Ls) 0 = nth k Ls 0 - sk.
Proof.
  intros Hk. unfold counts.
  rewrite (nth_indep _ 0 (0 - sk)) by (now rewrite length_map).
  now rewrite (map_nth (fun L => L - sk) Ls 0 k).
Qed.

Lemma counts_nonneg (sk : Z) (Ls : list Z) :
  Forall (fun L => sk <= L) Ls -> Forall (fun c => 0 <= c) (counts sk Ls).
Proof.
  intros H. unfold counts. apply Forall_map.
  eapply Forall_impl; [|exact H]. intros L HL. cbv beta in *. lia.
Qed.


(** A dataset object in the state the constructor leaves it in. *)
Section Built.

Context {F : Type}.
Variables (ds : H5Dataset F) (sk : Z) (Ls : list Z).
Hypothesis Hskip : skip ds = sk.
Hypothesis Hn : n_groups ds = len (group_names ds).
Hypothesis HLs : run_lengths ds = Ok Ls.
Hypothesis Hbounds : group_boundaries ds = cumsum ([0] ++ counts sk Ls).

Lemma lengths_per_group : List.length Ls = List.length (group_names ds).
Proof. exact (proj1 (rmap_ok_nth _ _ _ HLs)). Qed.

Lemma n_groups_lengths : n_groups ds = len Ls.
Proof. rewrite Hn. unfold len. now rewrite lengths_per_group. Qed.

Lemma len_run :
  run (@__len__ F) ds = (Ok (sum (counts sk Ls)), ds).
Proof.
  unfold run, __len__. rewrite bind_run. unfold gets, lift.
  now rewrite Hbounds, boundaries_last.
Qed.

Lemma boundaries_count :
  len (group_boundaries ds) = n_groups ds + 1.
Proof.
  rewrite n_groups_lengths, Hbounds. unfold len.
  rewrite boundaries_length, counts_length. lia.
Qed.

Lemma boundary_diff (r : Z) :
  0 <= r < n_groups ds ->
  boundary ds (r + 1) - boundary ds r = nth (Z.to_nat r) Ls 0 - sk.
Proof.
  intros Hr. unfold boundary. rewrite Hbounds.
  rewrite n_groups_lengths in Hr. unfold len in Hr.
  replace (Z.to_nat (r + 1)) with (S (Z.to_nat r)) by lia.
  rewrite boundaries_step by (rewrite counts_length; lia).
  rewrite counts_nth by lia. lia.
Qed.

Lemma locate_run (i : Z) :
  run (@locate F i) ds
  = (rbind (digitize i (group_boundaries ds)) (fun d =>
     rbind (getitem (group_boundaries ds) (d - 1)) (fun b =>
     Ok (d - 1, i - b))), ds).
Proof.
  unfold run, locate. rewrite bind_run. unfold gets at 1.
  rewrite bind_run. unfold lift at 1.
  destruct (digitize i (group_boundaries ds)) as [d|e]; [|reflexivity].
  rewrite bind_run. unfold lift at 1. cbn [rbind].
  destruct (getitem (group_boundaries ds) (d - 1)); reflexivity.
Qed.

(** Whenever an index inside [[0, len)] is located, the boundaries are
    ascending and the index lies in the bucket of the run found. *)
Lemma locate_bucket (i r j : Z) :
  0 <= i < sum (counts sk Ls) ->
  run (@locate F i) ds = (Ok (r, j), ds) ->
  ascending (group_boundaries ds) /\
  0 <= r < n_groups ds /\
  boundary ds r <= i < boundary ds (r + 1) /\
  j = i - boundary ds r /\
  0 <= j < nth (Z.to_nat r) Ls 0 - sk.
Proof.
  intros Hi. rewrite locate_run. intros H. injection H as H.
  destruct (digitize i (group_boundaries ds)) as [d|e] eqn:Hd;
    cbn [rbind] in H; [|discriminate].
  rewrite Hbounds in Hd.
  destruct (digitize_bucket _ _ _ Hd Hi) as [Hasc [Hdr Hbucket]].
  unfold len in Hdr. rewrite counts_length in Hdr. fold (len Ls) in Hdr.
  rewrite <- n_groups_lengths in Hdr.
  rewrite (getitem_nonneg _ _ 0) in H
    by (rewrite boundaries_count; lia).
  cbn [rbind] in H. injection H as <- <-.
  rewrite <- Hbounds in Hasc, Hbucket.
  assert (Hr : 0 <= d - 1 < n_groups ds) by lia.
  pose proof (boundary_diff _ Hr) as Hdiff.
  unfold boundary in *.
  replace (d - 1 + 1) with d in * by lia.
  repeat split; try assumption; lia.
Qed.

(** With every run at least [skip] steps long, every index inside
    [[0, len)] is located. *)
Lemma locate_succeeds (i : Z) :
  Forall (fun L => sk <= L) Ls ->
  exists r j, run (@locate F i) ds = (Ok (r, j), ds).
Proof.
  intros Hall. rewrite locate_run, Hbounds.
  rewrite digitize_ascending by now apply counts_nonneg.
  cbn [rbind].
  pose proof (searchsorted_right_range
                (cumsum ([0] ++ counts sk Ls)) i) as Hr.
  set (d := searchsorted_right _ i) in *.
  destruct (Z.eq_dec d 0) as [Hd0|Hd0].
  - rewrite (getitem_negative _ _ 0).
    + cbn [rbind]. eauto.
    + unfold len. rewrite boundaries_length. lia.
  - rewrite (getitem_nonneg _ _ 0) by lia. cbn [rbind]. eauto.
Qed.

(** *** Reading a snapshot *)

Variables (F32 : Type) (to_float32 : F -> F32).

Lemma read_only_locate (i : Z) : read_only (@locate F i).
Proof. unfold locate. read_only_tac. Qed.

Lemma read_only_read_field (r k : Z) :
  read_only (read_field to_float32 r k).
Proof. unfold read_field. read_only_tac. Qed.

Lemma read_only_getitem (i : Z) : read_only (__getitem__ to_float32 i).
Proof.
  unfold __getitem__. apply read_only_bind; [apply read_only_locate|].
  intros [r j]. apply read_only_bind; [apply read_only_read_field|].
  intros a. apply read_only_bind; [apply read_only_gets|].
  intros s. apply read_only_bind; [apply read_only_read_field|].
  intros b. apply read_only_ret.
Qed.

Lemma read_field_run (r k : Z) :
  run (read_field to_float32 r k) ds
  = (rbind (getitem (group_names ds) r) (fun name =>
     rbind (H5.get_group (h5f ds) name) (fun grp =>
     rbind (H5.get_dataset (H5.field_values grp) "field_values") (fun fv =>
     rbind (getitem fv k) (fun a =>
     Ok (map (map to_float32) a))))), ds).
Proof.
  unfold run, read_field. rewrite !bind_run. unfold gets at 1.
  rewrite bind_run. unfold gets at 1.
  rewrite bind_run. unfold lift at 1.
  destruct (getitem (group_names ds) r) as [name|e]; [|reflexivity].
  rewrite bind_run. unfold lift at 1. cbn [rbind].
  destruct (H5.get_group (h5f ds) name) as [grp|e]; [|reflexivity].
  rewrite bind_run. unfold lift at 1. cbn [rbind].
  destruct (H5.get_dataset (H5.field_values grp) "field_values")
    as [fv|e]; [|reflexivity].
  rewrite bind_run. unfold lift at 1. cbn [rbind].
  destruct (getitem fv k); reflexivity.
Qed.

Lemma getitem_run (i r j : Z) :
  run (@locate F i) ds = (Ok (r, j), ds) ->
  run (__getitem__ to_float32 i) ds
  = (rbind (fst (run (read_field to_float32 r j) ds)) (fun a =>
     rbind (fst (run (read_field to_float32 r (j + sk)) ds)) (fun b =>
     Ok (add_channel a, add_channel b))), ds).
Proof.
  intros Hloc. unfold run in *. unfold __getitem__.
  rewrite bind_run, Hloc, bind_run.
  pose proof (read_only_run _ ds (read_only_read_field r j)) as H1.
  unfold run in H1. rewrite H1.
  destruct (fst (read_field to_float32 r j ds)) as [a|e]; [|reflexivity].
  rewrite bind_run. unfold gets at 1. rewrite bind_run, Hskip.
  pose proof (read_only_run _ ds (read_only_read_field r (j + sk))) as H2.
  unfold run in H2. rewrite H2. cbn [rbind].
  destruct (fst (read_field to_float32 r (j + sk) ds)); reflexivity.
Qed.

(** In a well-formed store the snapshots of run [r] are as many as its
    time values. *)
Lemma run_fields_length (r : Z) :
  well_formed_store (h5f ds) ->
  0 <= r < n_groups ds ->
  exists grp,
    H5.get_group (h5f ds) (nth (Z.to_nat r) (group_names ds) "") = Ok grp /\
    H5.field_values grp = Some (run_fields ds r) /\
    len (run_fields ds r) = nth (Z.to_nat r) Ls 0.
Proof.
  intros Hwf Hr. rewrite Hn in Hr. unfold len in Hr.
  destruct (rmap_ok_nth _ _ _ HLs) as [_ Hnth].
  specialize (Hnth (Z.to_nat r) "" 0 ltac:(lia)).
  unfold time_steps in Hnth. unfold run_fields.
  destruct (H5.get_group (h5f ds) (nth (Z.to_nat r) (group_names ds) ""))
    as [grp|e] eqn:Hg; cbn [rbind] in Hnth; [|discriminate].
  exists grp. split; [reflexivity|].
  assert (Hin : exists name, In (name, grp) (h5f ds)).
  { unfold H5.get_group in Hg.
    destruct (find _ (h5f ds)) as [[name g]|] eqn:Hfind; [|discriminate].
    apply find_some in Hfind. destruct Hfind as [Hin _].
    injection Hg as <-. now exists name. }
  destruct Hin as [name Hin].
  unfold well_formed_store in Hwf. rewrite Forall_forall in Hwf.
  specialize (Hwf _ Hin). unfold consistent_run in Hwf. cbn [snd] in Hwf.
  destruct (H5.time grp) as [t|]; [|contradiction].
  destruct (H5.field_values grp) as [fv|]; [|contradiction].
  cbn [H5.get_dataset rbind] in Hnth. injection Hnth as Ht.
  split; [reflexivity|]. unfold len in *. congruence.
Qed.

Lemma read_field_ok (r k : Z) :
  well_formed_store (h5f ds) ->
  0 <= r < n_groups ds ->
  0 <= k < nth (Z.to_nat r) Ls 0 ->
  run (read_field to_float32 r k) ds
  = (Ok (map (map to_float32) (nth (Z.to_nat k) (run_fields ds r) [])), ds).
Proof.
  intros Hwf Hr Hk. rewrite read_field_run.
  destruct (run_fields_length r Hwf Hr) as [grp [Hg [Hfv Hlen]]].
  rewrite (getitem_nonneg _ _ "") by (rewrite <- Hn; lia).
  cbn [rbind]. rewrite Hg. cbn [rbind]. rewrite Hfv.
  cbn [H5.get_dataset rbind].
  rewrite (getitem_nonneg (run_fields ds r) k ([] : H5.snapshot F)) by lia.
  reflexivity.
Qed.



End Built.

End LoadersFacts.


(* ================================================================== *)
(** * Facts about the training driver                                  *)
(* ================================================================== *)

Module TrainFacts.

Import TrainModel TrainSpec.

Lemma after_nil (st : state) : after st (min_val_loss st) [] = st.
Proof. destruct st as [b tr]. unfold after. cbn. now rewrite app_nil_r. Qed.

Lemma after_after (st : state) (b1 b2 : float) (d1 d2 : list effect) :
  after (after st b1 d1) b2 d2 = after st b2 (d1 ++ d2).
Proof. unfold after. cbn. now rewrite app_assoc. Qed.

Lemma emit_run (e : effect) (st : state) :
  emit e st = (Ok tt, after st (min_val_loss st) [e]).
Proof. reflexivity. Qed.

Lemma set_min_val_loss_run (v : float) (st : state) :
  set_min_val_loss v st = (Ok tt, after st v []).
Proof. unfold set_min_val_loss, modify, after. now rewrite app_nil_r. Qed.

Lemma range_pos (n : Z) :
  1 <= n -> range n = 0 :: map Z.of_nat (seq 1 (Z.to_nat n - 1)).
Proof.
  intros H. unfold range.
  replace (Z.to_nat n) with (S (Z.to_nat n - 1)) at 1 by lia.
  reflexivity.
Qed.

(** ** Floats *)

Lemma Qltb_lt (a b : Q) : Qltb a b = true <-> (a < b)%Q.
Proof.
  unfold Qltb. rewrite negb_true_iff, <- not_true_iff_false, Qle_bool_iff.
  split; [apply Qnot_le_lt | apply Qlt_not_le].
Qed.

Lemma float_lt_irrefl (x : float) : float_lt x x = false.
Proof.
  destruct x as [q| | |]; try reflexivity. cbn.
  apply not_true_iff_false. rewrite Qltb_lt. apply Qlt_irrefl.
Qed.

Lemma Qltb_false (a b : Q) : Qltb a b = false <-> (b <= a)%Q.
Proof. unfold Qltb. now rewrite negb_false_iff, Qle_bool_iff. Qed.

Lemma float_lt_trans (a b c : float) :
  float_lt a b = true -> float_lt b c = true -> float_lt a c = true.
Proof.
  destruct a, b, c; cbn; try congruence.
  rewrite !Qltb_lt. apply Qlt_trans.
Qed.

(** A loss that is not below the best seen, and is a number, is at least
    the best seen. *)
Lemma float_lt_not_below (u best x : float) :
  float_lt u best = false -> is_nan u = false ->
  float_lt x best = true -> float_lt x u = true.
Proof.
  destruct u, best, x; cbn; try congruence.
  rewrite Qltb_false, !Qltb_lt. intros Hle _ Hlt.
  eapply Qlt_le_trans; eassumption.
Qed.

Lemma float_lt_not_nan (a b : float) :
  float_lt a b = true -> is_nan a = false.
Proof. destruct a, b; cbn; congruence. Qed.

Lemma range_In (n x : Z) : In x (range n) <-> 0 <= x < n.
Proof.
  unfold range. rewrite in_map_iff. split.
  - intros [k [<- Hk]]. apply in_seq in Hk. lia.
  - intros H. exists (Z.to_nat x). split; [lia|]. apply in_seq. lia.
Qed.

Lemma range_split (n e : Z) :
  0 <= e < n ->
  range n
  = range e ++ e :: map Z.of_nat (seq (S (Z.to_nat e))
                                    (Z.to_nat n - Z.to_nat e - 1)).
Proof.
  intros H. unfold range.
  replace (Z.to_nat n)
    with (Z.to_nat e + S (Z.to_nat n - Z.to_nat e - 1))%nat at 1 by lia.
  rewrite seq_app, map_app. cbn [seq map Nat.add].
  now rewrite Z2Nat.id by lia.
Qed.

(** ** The file names *)

Lemma append_inj_l (p a b : string) :
  (p ++ a)%string = (p ++ b)%string -> a = b.
Proof.
  induction p as [|c p IH]; cbn; intros H; [assumption|].
  injection H as H. now apply IH.
Qed.

Lemma save_path_not_checkpoint (args : Namespace) (date_time : datetime) :
  save_path_of args date_time
  <> checkpoint_file args (model_path_of date_time).
Proof.
  unfold save_path_of, checkpoint_file. intros H.
  apply append_inj_l in H. cbn in H. discriminate.
Qed.

Section Run.

Variable n_train_batches : Z.
Variable valid_loss_at : Z -> float.
Variable args : Namespace.
Variable model_path : string.

Abbreviation train_phase := (train_phase n_train_batches args).
Abbreviation valid_phase := (valid_phase valid_loss_at args model_path).
Abbreviation epoch_body := (epoch_body n_train_batches valid_loss_at args
                          model_path).
Abbreviation next_best := (next_best valid_loss_at args).
Abbreviation best_after := (best_after valid_loss_at args).
Abbreviation epoch_effects := (epoch_effects n_train_batches valid_loss_at
                             args model_path).
Abbreviation loop_effects := (loop_effects n_train_batches valid_loss_at
                            args model_path).

(** *** The training phase *)

Lemma train_batch_run (epoch step : Z) (st : state) :
  train_batch args epoch step st
  = (if log_freq args =? 0 then Raise ZeroDivisionError else Ok tt,
     after st (min_val_loss st) [TrainStep epoch step]).
Proof.
  unfold train_batch. rewrite bind_run, emit_run, bind_run.
  unfold lift, mod_. destruct (log_freq args =? 0); reflexivity.
Qed.

Lemma train_steps_ok_inv (epoch : Z) (steps : list Z) :
  forall st st',
    for_each steps (train_batch args epoch) st = (Ok tt, st') ->
    st' = after st (min_val_loss st) (map (TrainStep epoch) steps).
Proof.
  induction steps as [|x t IH]; intros st st' H; cbn [for_each] in H.
  - injection H as <-. cbn [map]. now rewrite after_nil.
  - rewrite bind_run, train_batch_run in H.
    destruct (log_freq args =? 0); [discriminate|].
    apply IH in H. subst st'. cbn [min_val_loss after].
    rewrite after_after. reflexivity.
Qed.

Lemma train_steps_ok (epoch : Z) (steps : list Z) :
  log_freq args <> 0 ->
  forall st,
    for_each steps (train_batch args epoch) st
    = (Ok tt, after st (min_val_loss st) (map (TrainStep epoch) steps)).
Proof.
  intros Hlf. apply Z.eqb_neq in Hlf.
  induction steps as [|x t IH]; intros st; cbn [for_each].
  - cbn [map]. now rewrite after_nil.
  - rewrite bind_run, train_batch_run, Hlf, IH.
    cbn [min_val_loss after]. now rewrite after_after.
Qed.

Lemma train_phase_ok_inv (epoch : Z) (st st' : state) :
  run (train_phase epoch) st = (Ok tt, st') ->
  st' = after st (min_val_loss st) (train_effects n_train_batches epoch).
Proof. apply train_steps_ok_inv. Qed.

Lemma train_phase_ok (epoch : Z) (st : state) :
  log_freq args <> 0 ->
  run (train_phase epoch) st
  = (Ok tt, after st (min_val_loss st)
              (train_effects n_train_batches epoch)).
Proof. intros H. now apply train_steps_ok. Qed.

(** *** Validation, checkpoint, scheduler *)

Lemma valid_phase_run (epoch : Z) (st : state) :
  run (valid_phase epoch) st
  = if valid_freq args =? 0 then (Raise ZeroDivisionError, st)
    else (Ok tt,
          after st (next_best (min_val_loss st) epoch)
            (if validates args epoch then
               [ValidPhase epoch (valid_loss_at epoch)] ++
               (if float_lt (valid_loss_at epoch) (min_val_loss st)
                then [TorchSave (Some epoch)
                        (checkpoint_file args model_path)]
                else []) ++
               [SchedulerStep epoch (valid_loss_at epoch)]
             else [])).
Proof.
  unfold run, TrainModel.valid_phase, TrainSpec.next_best, improves,
    validates.
  rewrite bind_run. unfold lift, mod_.
  destruct (valid_freq args =? 0); [reflexivity|].
  destruct (epoch mod valid_freq args =? 0); cbn [andb].
  - rewrite bind_run, emit_run, bind_run. unfold gets.
    cbn [min_val_loss after]. rewrite bind_run.
    destruct (float_lt (valid_loss_at epoch) (min_val_loss st)).
    + rewrite bind_run, emit_run, set_min_val_loss_run, emit_run.
      cbn [min_val_loss]. rewrite !after_after. reflexivity.
    + unfold ret. rewrite emit_run. cbn [min_val_loss].
      rewrite !after_after. reflexivity.
  - unfold ret. now rewrite after_nil.
Qed.

(** *** One epoch *)

Lemma epoch_body_ok_inv (epoch : Z) (st st' : state) :
  run (epoch_body epoch) st = (Ok tt, st') ->
  valid_freq args <> 0 /\
  st' = after st (next_best (min_val_loss st) epoch)
          (epoch_effects (min_val_loss st) epoch).
Proof.
  unfold run, TrainModel.epoch_body. rewrite bind_run.
  destruct (TrainModel.train_phase n_train_batches args epoch st)
    as [[[]|e] st1] eqn:Ht; [|discriminate].
  apply train_phase_ok_inv in Ht. subst st1.
  pose proof (valid_phase_run epoch
    (after st (min_val_loss st) (train_effects n_train_batches epoch)))
    as Hv.
  unfold run in Hv. rewrite Hv. clear Hv.
  destruct (Z.eqb_spec (valid_freq args) 0); [discriminate|].
  intros H. injection H as <-. split; [assumption|].
  cbn [min_val_loss]. rewrite after_after. reflexivity.
Qed.

Lemma epoch_body_ok (epoch : Z) (st : state) :
  valid_freq args <> 0 -> log_freq args <> 0 ->
  run (epoch_body epoch) st
  = (Ok tt, after st (next_best (min_val_loss st) epoch)
              (epoch_effects (min_val_loss st) epoch)).
Proof.
  intros Hvf Hlf. unfold run, TrainModel.epoch_body. rewrite bind_run.
  pose proof (train_phase_ok epoch st Hlf) as Ht. unfold run in Ht.
  rewrite Ht.
  pose proof (valid_phase_run epoch
    (after st (min_val_loss st) (train_effects n_train_batches epoch)))
    as Hv.
  unfold run in Hv. rewrite Hv.
  apply Z.eqb_neq in Hvf. rewrite Hvf.
  cbn [min_val_loss]. now rewrite after_after.
Qed.

(** *** The epoch loop *)

Lemma loop_ok_inv (epochs : list Z) : forall st st',
  run (for_each epochs epoch_body) st = (Ok tt, st') ->
  st' = after st (best_after (min_val_loss st) epochs)
          (loop_effects (min_val_loss st) epochs).
Proof.
  unfold run. induction epochs as [|e t IH]; intros st st' H;
    cbn [for_each] in H.
  - injection H as <-. cbn. now rewrite after_nil.
  - rewrite bind_run in H.
    destruct (epoch_body e st) as [[[]|ex] st1] eqn:He; [|discriminate].
    apply epoch_body_ok_inv in He. destruct He as [_ ->].
    apply IH in H. subst st'. cbn [min_val_loss].
    rewrite after_after. reflexivity.
Qed.

Lemma loop_ok (epochs : list Z) :
  valid_freq args <> 0 -> log_freq args <> 0 ->
  forall st,
    run (for_each epochs epoch_body) st
    = (Ok tt, after st (best_after (min_val_loss st) epochs)
                (loop_effects (min_val_loss st) epochs)).
Proof.
  intros Hvf Hlf. unfold run.
  induction epochs as [|e t IH]; intros st; cbn [for_each].
  - cbn. now rewrite after_nil.
  - rewrite bind_run.
    pose proof (epoch_body_ok e st Hvf Hlf) as He. unfold run in He.
    rewrite He, IH. cbn [min_val_loss]. now rewrite after_after.
Qed.

(** *** What the loop writes *)

Lemma saves_app (a b : list effect) : saves (a ++ b) = saves a ++ saves b.
Proof.
  induction a as [|x t IH]; [reflexivity|].
  destruct x; cbn [app saves]; rewrite IH; reflexivity.
Qed.

Lemma saves_train_effects (epoch : Z) :
  saves (train_effects n_train_batches epoch) = [].
Proof.
  unfold train_effects. induction (range n_train_batches); [reflexivity|].
  assumption.
Qed.

Lemma saves_epoch_effects (best : float) (epoch : Z) :
  saves (epoch_effects best epoch)
  = if improves valid_loss_at args best epoch
    then [(Some epoch, checkpoint_file args model_path)] else [].
Proof.
  unfold TrainSpec.epoch_effects, improves.
  rewrite saves_app, saves_train_effects.
  destruct (validates args epoch); [|reflexivity].
  destruct (float_lt (valid_loss_at epoch) best); reflexivity.
Qed.

(** The loop writes the checkpoint file, and only that file, in the
    epochs that improve on the best loss seen. *)
Lemma saves_loop_effects (epochs : list Z) : forall best,
  saves (loop_effects best epochs)
  = map (fun e => (Some e, checkpoint_file args model_path))
        (records valid_loss_at args best epochs).
Proof.
  induction epochs as [|e t IH]; intros best; [reflexivity|].
  cbn [TrainSpec.loop_effects records].
  rewrite saves_app, saves_epoch_effects, IH.
  unfold TrainSpec.next_best.
  destruct (improves valid_loss_at args best e); reflexivity.
Qed.

(** *** The epochs that improve on the best loss seen *)

Lemma records_app (l1 l2 : list Z) : forall best,
  records valid_loss_at args best (l1 ++ l2)
  = records valid_loss_at args best l1
    ++ records valid_loss_at args (best_after best l1) l2.
Proof.
  induction l1 as [|e t IH]; intros best; [reflexivity|].
  cbn [app records TrainSpec.best_after fold_left].
  unfold TrainSpec.next_best.
  destruct (improves valid_loss_at args best e); cbn [app]; now rewrite IH.
Qed.

Lemma records_incl (l : list Z) : forall best x,
  In x (records valid_loss_at args best l) -> In x l.
Proof.
  induction l as [|e t IH]; intros best x H; [assumption|].
  cbn [records] in H.
  destruct (improves valid_loss_at args best e).
  - destruct H as [<- | H]; [now left | right; eapply IH; eassumption].
  - right. eapply IH; eassumption.
Qed.

(** Being below the best seen after some epochs is being below the best
    seen before them and below every loss validated in them. *)
Lemma float_lt_best_after (l : list Z) : forall best x,
  float_lt x (best_after best l)
  = float_lt x best &&
    forallb (fun e => negb (validates args e) || is_nan (valid_loss_at e)
                      || float_lt x (valid_loss_at e)) l.
Proof.
  induction l as [|e t IH]; intros best x.
  - cbn. now rewrite andb_true_r.
  - cbn [TrainSpec.best_after fold_left forallb].
    change (fold_left next_best t (next_best best e))
      with (best_after (next_best best e) t).
    rewrite IH, andb_assoc. f_equal.
    unfold TrainSpec.next_best, improves.
    destruct (validates args e); cbn [andb negb orb];
      [|now rewrite andb_true_r].
    destruct (float_lt (valid_loss_at e) best) eqn:Hb.
    + rewrite (float_lt_not_nan _ _ Hb). cbn [orb].
      destruct (float_lt x (valid_loss_at e)) eqn:Hx.
      * now rewrite (float_lt_trans _ _ _ Hx Hb).
      * now rewrite andb_false_r.
    + destruct (float_lt x best) eqn:Hx; [|reflexivity].
      destruct (is_nan (valid_loss_at e)) eqn:Hnan; [reflexivity|].
      now rewrite (float_lt_not_below _ _ _ Hb Hnan Hx).
Qed.

(** In a run of [n] epochs from [+inf], the checkpoint epochs are the
    validated epochs whose loss is below [+inf] and below every loss
    validated before. *)
Lemma records_range (n e : Z) :
  0 <= e < n ->
  In e (records valid_loss_at args PosInf (range n)) <->
  validates args e = true /\ beats valid_loss_at args e (range e) = true.
Proof.
  intros He. rewrite (range_split n e He), records_app.
  cbn [records]. unfold improves at 1. rewrite float_lt_best_after.
  fold (beats valid_loss_at args e (range e)).
  rewrite in_app_iff. split.
  - intros [H | H].
    + apply records_incl, range_In in H. lia.
    + destruct (validates args e && beats valid_loss_at args e (range e))
        eqn:Hi; [now apply andb_true_iff in Hi|].
      apply records_incl, in_map_iff in H. destruct H as [k [Hk Hin]].
      apply in_seq in Hin. lia.
  - intros [Hv Hb]. right. rewrite Hv, Hb. now left.
Qed.

Lemma validation_in_epoch_effects (best : float) (epoch : Z) :
  validates args epoch = true ->
  In (ValidPhase epoch (valid_loss_at epoch)) (epoch_effects best epoch).
Proof.
  intros H. unfold TrainSpec.epoch_effects. rewrite H.
  apply in_or_app. right. now left.
Qed.

End Run.

Section MainRun.

Variable n_train_batches : Z.
Variable valid_loss_at : Z -> float.
Variable args : Namespace.
Variable date_time : datetime.

Lemma setup_directories_run (st : state) :
  setup_directories (timestring_of date_time) args st
  = (Ok (save_path_of args date_time, model_path_of date_time,
         (model_path_of date_time ++ "/log")%string),
     after st (min_val_loss st)
       [MakeDirs (model_path_of date_time);
        MakeDirs (model_path_of date_time ++ "/log")%string]).
Proof.
  unfold setup_directories. rewrite bind_run, emit_run, bind_run, emit_run.
  unfold ret. cbn [min_val_loss]. rewrite after_after. reflexivity.
Qed.

Lemma main_ok_inv (st st' : state) :
  run (main n_train_batches valid_loss_at args date_time) st
  = (Ok tt, st') ->
  st' = after st
          (best_after valid_loss_at args PosInf (range (n_epochs args)))
          (main_effects n_train_batches valid_loss_at args date_time).
Proof.
  unfold run, main. rewrite bind_run, setup_directories_run.
  rewrite bind_run, set_min_val_loss_run, after_after, bind_run.
  match goal with
  | |- context [for_each ?l ?b ?s] =>
      destruct (for_each l b s) as [[[]|e] st1] eqn:Hloop
  end; [|discriminate].
  apply loop_ok_inv in Hloop. subst st1. cbn [min_val_loss].
  rewrite emit_run. intros H. injection H as <-.
  cbn [min_val_loss]. rewrite !after_after. reflexivity.
Qed.

Lemma main_ok (st : state) :
  valid_freq args <> 0 -> log_freq args <> 0 ->
  run (main n_train_batches valid_loss_at args date_time) st
  = (Ok tt,
     after st
       (best_after valid_loss_at args PosInf (range (n_epochs args)))
       (main_effects n_train_batches valid_loss_at args date_time)).
Proof.
  intros Hvf Hlf. unfold run, main.
  rewrite bind_run, setup_directories_run.
  rewrite bind_run, set_min_val_loss_run, after_after, bind_run.
  match goal with
  | |- context [for_each ?l ?b ?s] =>
      pose proof (loop_ok n_train_batches valid_loss_at args
                    (model_path_of date_time) l Hvf Hlf s) as Hloop
  end.
  unfold run in Hloop. rewrite Hloop. cbn [min_val_loss].
  rewrite emit_run. cbn [min_val_loss]. rewrite !after_after.
  unfold main_effects. rewrite app_nil_r. reflexivity.
Qed.

Lemma saves_main_effects :
  saves (main_effects n_train_batches valid_loss_at args date_time)
  = map (fun e => (Some e,
                   checkpoint_file args (model_path_of date_time)))
        (records valid_loss_at args PosInf (range (n_epochs args)))
    ++ [(None, save_path_of args date_time)].
Proof.
  unfold main_effects. rewrite !saves_app, saves_loop_effects.
  reflexivity.
Qed.

Lemma epochs_saving_checkpoint (epochs : list Z) (file : string)
      (rest : list (option Z * string)) :
  flat_map (fun s => match fst s with
                     | Some epoch =>
                         if String.eqb (snd s) file then [epoch] else []
                     | None => []
                     end)
    (map (fun e => (Some e, file)) epochs ++ rest)
  = epochs ++
    flat_map (fun s => match fst s with
                       | Some epoch =>
                           if String.eqb (snd s) file then [epoch] else []
                       | None => []
                       end) rest.
Proof.
  induction epochs as [|e t IH]; [reflexivity|].
  cbn [map app flat_map fst snd]. rewrite String.eqb_refl, IH.
  reflexivity.
Qed.

Lemma times_saved_main_effects :
  times_saved (save_path_of args date_time)
    (main_effects n_train_batches valid_loss_at args date_time) = 1%nat.
Proof.
  unfold times_saved. rewrite saves_main_effects, filter_app, length_app.
  cbn [filter snd]. rewrite String.eqb_refl. cbn [List.length].
  match goal with |- (?n + 1 = 1)%nat => assert (n = 0%nat) as ->; [|reflexivity] end.
  induction (records valid_loss_at args PosInf (range (n_epochs args)))
    as [|e t IH]; [reflexivity|].
  cbn [map filter snd].
  destruct (String.eqb_spec
              (checkpoint_file args (model_path_of date_time))
              (save_path_of args date_time)) as [E|_]; [|exact IH].
  exfalso. symmetry in E. revert E. apply save_path_not_checkpoint.
Qed.

End MainRun.

End TrainFacts.

(* ================================================================== *)
(** * More facts about [H5Dataset]                                     *)
(* ================================================================== *)

Module LoadersMoreFacts.

Import Np LoadersSpec NpFacts Loaders LoadersFacts Accessors MoreSpec.

Lemma getitem_before_start {A} (l : list A) (k : Z) :
  k < - len l -> getitem l k = Raise IndexError.
Proof.
  intros H. unfold getitem. pose proof (len_nonneg l).
  destruct (Z.ltb_spec k 0); [|lia].
  destruct (Z.leb_spec 0 (k + len l)); [lia|]. reflexivity.
Qed.

(** A negative index counts from the end. *)
Lemma getitem_wraps {A} (l : list A) (k : Z) :
  - len l <= k < 0 -> getitem l k = getitem l (k + len l).
Proof.
  intros H. unfold getitem.
  destruct (Z.ltb_spec k 0); [|lia].
  destruct (Z.ltb_spec (k + len l) 0); [lia|]. reflexivity.
Qed.

Lemma getitem_in_range {A} (l : list A) (k : Z) (d : A) :
  - len l <= k < len l -> exists x, getitem l k = Ok x /\ In x l.
Proof.
  intros H. destruct (Z.ltb_spec k 0).
  - rewrite (getitem_negative l k d) by lia. eexists. split; [reflexivity|].
    apply nth_In. unfold len in *. lia.
  - rewrite (getitem_nonneg l k d) by lia. eexists. split; [reflexivity|].
    apply nth_In. unfold len in *. lia.
Qed.

Lemma well_formed_group {F} (f : H5.file F) (name : string)
      (grp : H5.group F) :
  well_formed_store f -> H5.get_group f name = Ok grp ->
  exists t fv,
    H5.time grp = Some t /\ H5.field_values grp = Some fv /\
    List.length fv = List.length t.
Proof.
  unfold well_formed_store, H5.get_group. intros Hwf Hg.
  destruct (find _ f) as [p|] eqn:Hfind; [|discriminate].
  apply find_some in Hfind. destruct Hfind as [Hin _].
  injection Hg as <-. rewrite Forall_forall in Hwf.
  specialize (Hwf p Hin). unfold consistent_run in Hwf.
  destruct (H5.time (snd p)) as [t|]; [|contradiction].
  destruct (H5.field_values (snd p)) as [fv|]; [|contradiction].
  now exists t, fv.
Qed.

Lemma get_group_of_key {F} (f : H5.file F) (name : string) :
  In name (H5.keys f) ->
  exists p, In p f /\ fst p = name /\ H5.get_group f name = Ok (snd p).
Proof.
  unfold H5.keys, H5.get_group. intros Hin.
  destruct (find (fun p => String.eqb (fst p) name) f) as [p|] eqn:Hf.
  - apply find_some in Hf. destruct Hf as [Hp He].
    apply String.eqb_eq in He. exists p. auto.
  - apply in_map_iff in Hin. destruct Hin as [q [Hq Hin]].
    pose proof (find_none _ _ Hf q Hin) as Hn. cbv beta in Hn.
    rewrite Hq, String.eqb_refl in Hn. discriminate.
Qed.

Lemma get_group_nodup {F} (f : H5.file F) (p : string * H5.group F) :
  NoDup (H5.keys f) -> In p f -> H5.get_group f (fst p) = Ok (snd p).
Proof.
  unfold H5.keys, H5.get_group. induction f as [|q f IH]; intros Hnd Hin.
  - destruct Hin.
  - cbn [map] in Hnd. inversion Hnd as [|? ? Hq Hnd']; subst.
    cbn [find]. destruct (String.eqb_spec (fst q) (fst p)) as [E|E].
    + destruct Hin as [->|Hin]; [reflexivity|].
      exfalso. apply Hq. rewrite E. now apply in_map.
    + destruct Hin as [->|Hin]; [contradiction|]. now apply IH.
Qed.

(** The constructor's reading of the run lengths: it returns when every
    group has a [time] dataset, and raises [KeyError] at the first group
    that has none. *)
Lemma rmap_time_steps_all {F} (f : H5.file F) (names : list string) :
  incl names (H5.keys f) ->
  Forall (fun p => has_time (snd p) = true) f ->
  exists Ls, rmap (time_steps f) names = Ok Ls.
Proof.
  intros Hincl Hall. induction names as [|g t IH]; [now exists []|].
  destruct IH as [Ls HLs]; [intros x Hx; apply Hincl; now right|].
  destruct (get_group_of_key f g (Hincl g (or_introl eq_refl)))
    as [p [Hp [_ Hg]]].
  rewrite Forall_forall in Hall. specialize (Hall p Hp).
  unfold has_time in Hall.
  cbn [rmap]. unfold time_steps at 1. rewrite Hg. cbn [rbind].
  destruct (H5.time (snd p)) as [ts|]; [|discriminate].
  cbn [H5.get_dataset rbind]. rewrite HLs. cbn [rbind]. eauto.
Qed.

Lemma rmap_time_steps_missing {F} (f : H5.file F)
      (groups : list (string * H5.group F)) :
  NoDup (H5.keys f) -> incl groups f ->
  forallb (fun p => has_time (snd p)) groups = false ->
  rmap (time_steps f) (H5.keys groups) = Raise (KeyError "time").
Proof.
  intros Hnd Hincl. induction groups as [|p t IH]; [discriminate|].
  cbn [forallb H5.keys map rmap]. intros H.
  unfold time_steps at 1.
  rewrite (get_group_nodup f p Hnd (Hincl p (or_introl eq_refl))).
  cbn [rbind]. unfold has_time in H.
  destruct (H5.time (snd p)) as [ts|]; [|reflexivity].
  cbn [H5.get_dataset rbind andb] in *.
  unfold H5.keys in IH. rewrite IH; [reflexivity| |assumption].
  intros x Hx. apply Hincl. now right.
Qed.

Section Built.

Context {F : Type}.
Variables (ds : H5Dataset F) (sk : Z) (Ls : list Z).
Hypothesis Hskip : skip ds = sk.
Hypothesis Hn : n_groups ds = len (group_names ds).
Hypothesis HLs : run_lengths ds = Ok Ls.
Hypothesis Hbounds : group_boundaries ds = cumsum ([0] ++ counts sk Ls).

Lemma boundaries_ascending :
  Forall (fun L => sk <= L) Ls -> ascending (group_boundaries ds).
Proof.
  intros Hall. rewrite Hbounds, cumsum_zero_cons.
  apply never_descends_ascending, never_descends_cumsum.
  now apply counts_nonneg.
Qed.

Lemma boundary_zero : boundary ds 0 = 0.
Proof. unfold boundary. now rewrite Hbounds. Qed.

Lemma boundary_total : boundary ds (n_groups ds) = sum (counts sk Ls).
Proof.
  unfold boundary. rewrite Hbounds, (n_groups_lengths ds Ls Hn HLs).
  unfold len. rewrite Nat2Z.id, boundaries_nth
    by (rewrite counts_length; lia).
  rewrite <- (counts_length sk Ls). now rewrite firstn_all.
Qed.

Lemma boundary_mono (r r' : Z) :
  ascending (group_boundaries ds) ->
  0 <= r <= r' -> r' <= n_groups ds ->
  boundary ds r <= boundary ds r'.
Proof.
  intros Hasc Hr Hr'. unfold boundary. apply Hasc.
  pose proof (boundaries_count ds sk Ls Hn HLs Hbounds) as Hc.
  unfold len in Hc. lia.
Qed.

(** An ascending boundary array means no run is shorter than [skip]. *)
Lemma ascending_runs_long_enough :
  ascending (group_boundaries ds) -> Forall (fun L => sk <= L) Ls.
Proof.
  intros Hasc. apply Forall_forall. intros L HL.
  destruct (In_nth _ _ 0 HL) as [k [Hk <-]].
  pose proof (boundary_diff ds sk Ls Hn HLs Hbounds (Z.of_nat k)) as Hd.
  rewrite (n_groups_lengths ds Ls Hn HLs) in Hd. unfold len in Hd.
  specialize (Hd ltac:(lia)). rewrite Nat2Z.id in Hd.
  pose proof (boundary_mono (Z.of_nat k) (Z.of_nat k + 1) Hasc
                ltac:(lia)) as Hm.
  rewrite (n_groups_lengths ds Ls Hn HLs) in Hm. unfold len in Hm.
  specialize (Hm ltac:(lia)). lia.
Qed.

(** The index [i] of the bucket of run [r] is located in run [r]. *)
Lemma locate_in_bucket (i r : Z) :
  Forall (fun L => sk <= L) Ls ->
  0 <= r < n_groups ds ->
  boundary ds r <= i < boundary ds (r + 1) ->
  0 <= i < sum (counts sk Ls) /\
  run (@locate F i) ds = (Ok (r, i - boundary ds r), ds).
Proof.
  intros Hall Hr Hb.
  pose proof (boundaries_ascending Hall) as Hasc.
  assert (Hi : 0 <= i < sum (counts sk Ls)).
  { pose proof (boundary_mono 0 r Hasc ltac:(lia) ltac:(lia)) as H0.
    pose proof (boundary_mono (r + 1) (n_groups ds) Hasc
                  ltac:(lia) ltac:(lia)) as H1.
    rewrite boundary_zero in H0. rewrite boundary_total in H1. lia. }
  split; [assumption|].
  destruct (locate_succeeds ds sk Ls Hbounds i Hall) as [r' [j' Hloc]].
  destruct (locate_bucket ds sk Ls Hn HLs Hbounds i r' j' Hi Hloc)
    as [_ [Hr' [Hb' [Hj' _]]]].
  assert (Z.to_nat r = Z.to_nat r').
  { pose proof (boundaries_count ds sk Ls Hn HLs Hbounds) as Hc.
    unfold len in Hc. unfold boundary in Hb, Hb'.
    replace (Z.to_nat (r + 1)) with (S (Z.to_nat r)) in Hb by lia.
    replace (Z.to_nat (r' + 1)) with (S (Z.to_nat r')) in Hb' by lia.
    apply (bucket_unique (group_boundaries ds) i); try assumption; lia. }
  assert (r' = r) by lia. subst r' j'. assumption.
Qed.

(** A negative index selects group id [-1] and the last boundary. *)
Lemma locate_negative (i : Z) :
  Forall (fun L => sk <= L) Ls ->
  i < 0 ->
  run (@locate F i) ds = (Ok (-1, i - sum (counts sk Ls)), ds).
Proof.
  intros Hall Hi. rewrite locate_run, Hbounds.
  rewrite digitize_ascending by now apply counts_nonneg.
  rewrite cumsum_zero_cons. cbn [searchsorted_right].
  destruct (Z.leb_spec 0 i); [lia|]. cbn [rbind].
  rewrite <- cumsum_zero_cons.
  change (0 - 1) with (-1). rewrite boundaries_last. reflexivity.
Qed.

Section Fields.

Variables (F32 : Type) (to_float32 : F -> F32).

Lemma group_of_run (g : Z) :
  run (@group_of F g) ds
  = (rbind (getitem (group_names ds) g) (H5.get_group (h5f ds)), ds).
Proof.
  unfold run, group_of. rewrite bind_run. unfold gets at 1.
  rewrite bind_run. unfold gets at 1. rewrite bind_run. unfold lift.
  destruct (getitem (group_names ds) g); reflexivity.
Qed.

Lemma get_simulation_run (g : Z) :
  run (get_simulation to_float32 g) ds
  = (rbind (fst (run (@group_of F g) ds)) (fun grp =>
     rbind (H5.get_dataset (H5.time grp) "time") (fun t =>
     rbind (H5.get_dataset (H5.field_values grp) "field_values") (fun fv =>
     Ok (map to_float32 t,
         map (fun a => [a]) (map (map (map to_float32)) fv))))), ds).
Proof.
  unfold run, get_simulation. rewrite bind_run.
  pose proof (group_of_run g) as Hg. unfold run in Hg. rewrite Hg.
  cbn [fst].
  destruct (rbind (getitem (group_names ds) g) (H5.get_group (h5f ds)))
    as [grp|e]; [|reflexivity].
  rewrite bind_run. unfold lift at 1. cbn [rbind].
  destruct (H5.get_dataset (H5.time grp) "time") as [t|e]; [|reflexivity].
  rewrite bind_run, Hg. rewrite bind_run. unfold lift at 1. cbn [rbind].
  destruct (H5.get_dataset (H5.field_values grp) "field_values");
    reflexivity.
Qed.

Lemma get_meshgrid_run (g : Z) :
  run (get_meshgrid to_float32 g) ds
  = (rbind (fst (run (@group_of F g) ds)) (fun grp =>
     rbind (H5.get_dataset (H5.x_coordinates grp) "x_coordinates") (fun x =>
     rbind (H5.get_dataset (H5.y_coordinates grp) "y_coordinates") (fun y =>
     Ok (map (map to_float32) x, map (map to_float32) y)))), ds).
Proof.
  unfold run, get_meshgrid. rewrite bind_run.
  pose proof (group_of_run g) as Hg. unfold run in Hg. rewrite Hg.
  cbn [fst].
  destruct (rbind (getitem (group_names ds) g) (H5.get_group (h5f ds)))
    as [grp|e]; [|reflexivity].
  rewrite bind_run. unfold lift at 1. cbn [rbind].
  destruct (H5.get_dataset (H5.x_coordinates grp) "x_coordinates")
    as [x|e]; [|reflexivity].
  rewrite bind_run, Hg. rewrite bind_run. unfold lift at 1. cbn [rbind].
  destruct (H5.get_dataset (H5.y_coordinates grp) "y_coordinates");
    reflexivity.
Qed.

(** A group id outside [[-n_groups, n_groups)] names no group. *)
Lemma group_of_out_of_range (g : Z) :
  g < - n_groups ds \/ n_groups ds <= g ->
  run (@group_of F g) ds = (Raise IndexError, ds).
Proof.
  intros H. rewrite group_of_run. rewrite Hn in H.
  destruct H as [H|H].
  - now rewrite getitem_before_start.
  - now rewrite getitem_past_end.
Qed.

Lemma group_of_wraps (g : Z) :
  - n_groups ds <= g < 0 ->
  run (@group_of F g) ds = run (@group_of F (g + n_groups ds)) ds.
Proof.
  intros H. rewrite !group_of_run, Hn.
  rewrite getitem_wraps by (rewrite <- Hn; lia). reflexivity.
Qed.

End Fields.

End Built.

End LoadersMoreFacts.

(* ================================================================== *)
(** * More facts about the training driver                             *)
(* ================================================================== *)

Module TrainMoreFacts.

Import TrainModel TrainSpec TrainFacts MoreSpec Params.


Lemma string_length_append (a b : string) :
  String.length (a ++ b)%string = (String.length a + String.length b)%nat.
Proof. induction a as [|c a IH]; cbn; [reflexivity|now rewrite IH]. Qed.

Lemma append_inj_r (a b t : string) :
  (a ++ t)%string = (b ++ t)%string -> a = b.
Proof.
  revert b. induction a as [|c a IH]; intros b H.
  - destruct b as [|d b]; [reflexivity|]. exfalso.
    apply (f_equal String.length) in H. cbn in H.
    rewrite string_length_append in H. lia.
  - destruct b as [|d b].
    + exfalso. apply (f_equal String.length) in H. cbn in H.
      rewrite string_length_append in H. lia.
    + cbn in H. injection H as -> H. f_equal. now apply IH.
Qed.

Lemma str_of_int_inj (a b : Z) : str_of_int a = str_of_int b -> a = b.
Proof.
  unfold str_of_int. intros H. apply DecimalZ.to_int_inj.
  apply (f_equal NilEmpty.int_of_string) in H.
  rewrite !NilEmpty.isi in H. now injection H.
Qed.

Section Run.

Variable n_train_batches : Z.
Variable valid_loss_at : Z -> float.
Variable args : Namespace.
Variable model_path : string.

Abbreviation train_phase := (train_phase n_train_batches args).
Abbreviation epoch_body := (epoch_body n_train_batches valid_loss_at args
                              model_path).
Abbreviation next_best := (next_best valid_loss_at args).
Abbreviation best_after := (best_after valid_loss_at args).
Abbreviation epoch_effects := (epoch_effects n_train_batches valid_loss_at
                                 args model_path).
Abbreviation loop_effects := (loop_effects n_train_batches valid_loss_at
                                args model_path).
Abbreviation records := (records valid_loss_at args).

(** *** The exact outcome of the phases, also when they fail *)




(** *** What the loop does, effect by effect *)

Lemma train_steps_app (a b : list effect) :
  train_steps (a ++ b) = train_steps a ++ train_steps b.
Proof.
  induction a as [|x t IH]; [reflexivity|].
  destruct x; cbn [app train_steps]; rewrite IH; reflexivity.
Qed.

Lemma validations_app (a b : list effect) :
  validations (a ++ b) = validations a ++ validations b.
Proof.
  induction a as [|x t IH]; [reflexivity|].
  destruct x; cbn [app validations]; rewrite IH; reflexivity.
Qed.

Lemma scheduler_steps_app (a b : list effect) :
  scheduler_steps (a ++ b) = scheduler_steps a ++ scheduler_steps b.
Proof.
  induction a as [|x t IH]; [reflexivity|].
  destruct x; cbn [app scheduler_steps]; rewrite IH; reflexivity.
Qed.

Lemma train_effects_steps (epoch : Z) :
  train_steps (train_effects n_train_batches epoch)
  = map (fun step => (epoch, step)) (range n_train_batches)
  /\ validations (train_effects n_train_batches epoch) = []
  /\ scheduler_steps (train_effects n_train_batches epoch) = [].
Proof.
  unfold train_effects.
  induction (range n_train_batches) as [|s t [IH1 [IH2 IH3]]];
    [now repeat split|].
  cbn [map train_steps validations scheduler_steps]. rewrite IH1.
  now repeat split.
Qed.

Lemma epoch_effects_steps (best : float) (epoch : Z) :
  train_steps (epoch_effects best epoch)
  = map (fun step => (epoch, step)) (range n_train_batches)
  /\ validations (epoch_effects best epoch)
     = (if validates args epoch then [(epoch, valid_loss_at epoch)] else [])
  /\ scheduler_steps (epoch_effects best epoch)
     = (if validates args epoch then [(epoch, valid_loss_at epoch)] else []).
Proof.
  destruct (train_effects_steps epoch) as [H1 [H2 H3]].
  unfold TrainSpec.epoch_effects.
  rewrite train_steps_app, validations_app, scheduler_steps_app, H1, H2, H3.
  destruct (validates args epoch);
    [destruct (float_lt (valid_loss_at epoch) best)|];
    cbn; rewrite ?app_nil_r; now repeat split.
Qed.

Lemma loop_effects_steps (epochs : list Z) : forall best,
  train_steps (loop_effects best epochs)
  = flat_map (fun e => map (fun step => (e, step)) (range n_train_batches))
      epochs
  /\ validations (loop_effects best epochs)
     = map (fun e => (e, valid_loss_at e)) (filter (validates args) epochs)
  /\ scheduler_steps (loop_effects best epochs)
     = map (fun e => (e, valid_loss_at e)) (filter (validates args) epochs).
Proof.
  induction epochs as [|e t IH]; intros best; [now repeat split|].
  destruct (IH (next_best best e)) as [IH1 [IH2 IH3]].
  destruct (epoch_effects_steps best e) as [H1 [H2 H3]].
  cbn [TrainSpec.loop_effects flat_map filter].
  rewrite train_steps_app, validations_app, scheduler_steps_app.
  rewrite H1, H2, H3, IH1, IH2, IH3.
  destruct (validates args e); now repeat split.
Qed.

(** *** The best loss seen *)

Lemma last_cons_default {A} (l : list A) : forall a d,
  last (a :: l) d = last l a.
Proof.
  induction l as [|b l IH]; intros a d; [reflexivity|].
  change (last (a :: b :: l) d) with (last (b :: l) d).
  now rewrite !IH.
Qed.

Lemma best_after_last (epochs : list Z) : forall best,
  best_after best epochs = last (map valid_loss_at (records best epochs)) best.
Proof.
  induction epochs as [|e t IH]; intros best; [reflexivity|].
  cbn [TrainSpec.best_after fold_left TrainSpec.records].
  change (fold_left next_best t (next_best best e))
    with (best_after (next_best best e) t).
  rewrite IH. unfold TrainSpec.next_best.
  destruct (improves valid_loss_at args best e); [|reflexivity].
  cbn [map]. now rewrite last_cons_default.
Qed.

Lemma strictly_falling_records (epochs : list Z) : forall best,
  strictly_falling (best :: map valid_loss_at (records best epochs)) = true.
Proof.
  induction epochs as [|e t IH]; intros best; [reflexivity|].
  cbn [TrainSpec.records]. unfold improves.
  destruct (validates args e); cbn [andb]; [|apply IH].
  destruct (float_lt (valid_loss_at e) best) eqn:Hlt; [|apply IH].
  cbn [map]. change (strictly_falling (best :: valid_loss_at e :: ?l))
    with (float_lt (valid_loss_at e) best
          && strictly_falling (valid_loss_at e :: l)).
  rewrite Hlt. apply IH.
Qed.

(** No validated loss of the run is below the best seen at its end. *)
Lemma best_after_is_lowest (epochs : list Z) (best : float) (e : Z) :
  In e epochs -> validates args e = true ->
  float_lt (valid_loss_at e) (best_after best epochs) = false.
Proof.
  intros Hin Hv. rewrite float_lt_best_after.
  destruct (float_lt (valid_loss_at e) best) eqn:Hb; [|reflexivity].
  cbn [andb]. apply not_true_iff_false. intros Hall.
  rewrite forallb_forall in Hall. specialize (Hall e Hin).
  rewrite Hv, float_lt_irrefl, (float_lt_not_nan _ _ Hb) in Hall.
  discriminate.
Qed.

End Run.

Section MainRun.

Variable n_train_batches : Z.
Variable valid_loss_at : Z -> float.
Variable args : Namespace.
Variable date_time : datetime.



End MainRun.

(** Among the first [k] epochs, [ceil(k / valid_freq)] are validated. *)
Lemma validated_count (args : Namespace) (k : nat) :
  1 <= valid_freq args ->
  len (filter (validates args) (map Z.of_nat (seq 0 k)))
  = (Z.of_nat k + valid_freq args - 1) / valid_freq args.
Proof.
  intros Hvf. unfold len. induction k as [|k IH].
  - cbn [seq map filter List.length]. symmetry. apply Z.div_small. lia.
  - rewrite seq_S, map_app, filter_app, length_app, Nat2Z.inj_add, IH.
    cbn [Nat.add map filter]. unfold validates at 1.
    set (vf := valid_freq args) in *. set (n := Z.of_nat k).
    assert (Hn : 0 <= n) by (subst n; lia).
    pose proof (Z.div_mod n vf ltac:(lia)) as Hdm.
    pose proof (Z.mod_pos_bound n vf ltac:(lia)) as Hm.
    replace (Z.of_nat (S k)) with (n + 1) by (subst n; lia).
    destruct (Z.eqb_spec (n mod vf) 0) as [Hz|Hz]; cbn [List.length].
    + rewrite <- (Z.div_unique (n + vf - 1) vf (n / vf) (vf - 1))
        by lia.
      apply (Z.div_unique (n + 1 + vf - 1) vf _ 0); lia.
    + rewrite <- (Z.div_unique (n + vf - 1) vf (n / vf + 1)
                    (n mod vf - 1)) by lia.
      apply (Z.div_unique (n + 1 + vf - 1) vf _ (n mod vf)); lia.
Qed.


(** ** [calculate_parameters] *)



End TrainMoreFacts.

(* ================================================================== *)
(** * The properties                                                   *)
(* ================================================================== *)

Import Np Loaders TrainModel LoadersSpec TrainSpec.
Import NpFacts LoadersFacts TrainFacts.

(** ** The dataset *)







(** C3 at the failing input.  With a single run of 20 steps and
    [skip = 1] the dataset has 19 samples, and index [-1] is out of range;
    yet [__getitem__(-1)] returns the snapshots of steps 0 and 1, the
    sample of index 0: [digitize] gives 0, the group id [-1] selects the
    last boundary and the last group, and the index within the group,
    [-20], counts from the end of the run. *)
Theorem C3_negative_index_returns_data :
  let ds := demo_dataset [20]%nat 1 in
  demo_init [20]%nat 1 = (Ok ds, ["data/train_data.h5"]) /\
  run (@__len__ Z) ds = (Ok 19, ds) /\
  run (@locate Z (-1)) ds = (Ok (-1, -20), ds) /\
  run (__getitem__ (fun x : Z => x) (-1)) ds
  = (Ok ([[[0; 0]]], [[[0; 1]]]), ds) /\
  run (__getitem__ (fun x : Z => x) (-1)) ds
  = run (__getitem__ (fun x : Z => x) 0) ds.
Proof.
  vm_compute. repeat split.
Qed.




(** C5.  In a store whose runs hold as many snapshots as time values, a
    valid index that is located in run [r] at offset [j] yields the
    snapshots of run [r] at steps [j] and [j + skip], each converted to
    [float32] entry by entry and each given a leading dimension of size
    one; both steps exist in the run. *)
Theorem C5_getitem_returns_snapshot_pair :
  forall (F F32 : Type) (to_float32 : F -> F32)
         (fs : string -> option (H5.file F))
         (path mode : string) (skip : Z) (w w' : list string)
         (ds : H5Dataset F) (n i r j : Z),
    run (__init__ fs path mode skip) w = (Ok ds, w') ->
    well_formed_store (h5f ds) ->
    0 <= skip ->
    run (@__len__ F) ds = (Ok n, ds) ->
    0 <= i < n ->
    run (@locate F i) ds = (Ok (r, j), ds) ->
    run (__getitem__ to_float32 i) ds
    = (Ok ([map (map to_float32) (nth (Z.to_nat j) (run_fields ds r) [])],
           [map (map to_float32)
              (nth (Z.to_nat (j + skip)) (run_fields ds r) [])]), ds) /\
    0 <= j /\ j + skip < len (run_fields ds r).
Proof.
  intros F F32 to_float32 fs path mode skip w w' ds n i r j
         Hinit Hwf Hsk Hlen Hi Hloc.
  destruct (init_ok fs _ _ _ _ _ _ Hinit)
    as [Ls [_ [_ [_ [Hskip [_ [HLs [Hb Hn]]]]]]]].
  rewrite (len_run ds skip Ls Hb) in Hlen. injection Hlen as <-.
  destruct (locate_bucket ds skip Ls Hn HLs Hb i r j Hi Hloc)
    as [_ [Hr [_ [_ Hjr]]]].
  destruct (run_fields_length ds Ls Hn HLs r Hwf Hr) as [_ [_ [_ Hfl]]].
  rewrite (getitem_run ds skip Hskip F32 to_float32 i r j Hloc).
  rewrite (read_field_ok ds Ls Hn HLs F32 to_float32 r j Hwf Hr)
    by lia.
  rewrite (read_field_ok ds Ls Hn HLs F32 to_float32 r (j + skip) Hwf Hr)
    by lia.
  cbn [fst rbind]. unfold add_channel. split; [reflexivity|lia].
Qed.

Lemma C5_witness :
  run (__getitem__ (fun x : Z => x) 27) (demo_dataset [10; 20]%nat 1)
  = (Ok ([map (map (fun x : Z => x))
            (nth (Z.to_nat 18)
               (run_fields (demo_dataset [10; 20]%nat 1) 1) [])],
         [map (map (fun x : Z => x))
            (nth (Z.to_nat (18 + 1))
               (run_fields (demo_dataset [10; 20]%nat 1) 1) [])]),
     demo_dataset [10; 20]%nat 1) /\
  0 <= 18 /\
  18 + 1 < len (run_fields (demo_dataset [10; 20]%nat 1) 1).
Proof.
  apply (C5_getitem_returns_snapshot_pair Z Z (fun x : Z => x)
           (demo_fs [10; 20]%nat)
           "data" "train" 1 [] ["data/train_data.h5"]
           (demo_dataset [10; 20]%nat 1) 28 27 1 18).
  - vm_compute. reflexivity.
  - vm_compute. repeat constructor.
  - lia.
  - vm_compute. reflexivity.
  - lia.
  - vm_compute. reflexivity.
Defined.

(** C8.  With a mode other than ['train'], ['valid'] and ['test'] the
    constructor raises [ValueError] without a single [h5py.File] call;
    with one of the three it never raises [ValueError]. *)
Theorem C8_mode_is_checked_first :
  forall (F : Type) (fs : string -> option (H5.file F))
         (path mode : string) (skip : Z) (w : list string),
    (~ In mode ["train"; "valid"; "test"] ->
     run (__init__ fs path mode skip) w
     = (Raise (ValueError
                 "mode must be one of 'train', 'valid', or 'test'"), w)) /\
    (In mode ["train"; "valid"; "test"] ->
     forall msg,
       fst (run (__init__ fs path mode skip) w) <> Raise (ValueError msg)).
Proof.
  intros F fs path mode skip w. split.
  - intros Hmode. unfold run, __init__.
    destruct (str_in mode ["train"; "valid"; "test"]) eqn:E.
    + apply str_in_In in E. contradiction.
    + reflexivity.
  - intros Hmode msg H.
    destruct (init_raises_only fs path mode skip w _ Hmode H)
      as [[name E] | [key E]]; discriminate.
Qed.

Lemma C8_witness :
  run (__init__ (demo_fs [10; 20]%nat) "data" "training" 1) []
  = (Raise (ValueError "mode must be one of 'train', 'valid', or 'test'"),
     []) /\
  forall msg,
    fst (run (__init__ (demo_fs [10; 20]%nat) "data" "valid" 1) [])
    <> Raise (ValueError msg).
Proof.
  split.
  - apply (proj1 (C8_mode_is_checked_first Z (demo_fs [10; 20]%nat)
                    "data" "training" 1 [])).
    intros [H | [H | [H | []]]]; discriminate.
  - apply (proj2 (C8_mode_is_checked_first Z (demo_fs [10; 20]%nat)
                    "data" "valid" 1 [])).
    right. left. reflexivity.
Defined.

(** C9.  Two lookups of the same index, one after the other on the same
    store, give the same answer (the same pair, or the same exception),
    and neither changes the dataset object: [skip], [group_names],
    [group_boundaries], [n_groups] and the rest are as before. *)
Theorem C9_getitem_deterministic_and_read_only :
  forall (F F32 : Type) (to_float32 : F -> F32) (ds : H5Dataset F) (i : Z),
    let (first, ds1) := run (__getitem__ to_float32 i) ds in
    let (second, ds2) := run (__getitem__ to_float32 i) ds1 in
    first = second /\ ds1 = ds /\ ds2 = ds /\
    skip ds2 = skip ds /\ group_names ds2 = group_names ds /\
    group_boundaries ds2 = group_boundaries ds /\
    n_groups ds2 = n_groups ds.
Proof.
  intros F F32 to_float32 ds i.
  rewrite (read_only_run _ ds (read_only_getitem F32 to_float32 i)).
  rewrite (read_only_run _ ds (read_only_getitem F32 to_float32 i)).
  repeat split.
Qed.

(** ** The training driver *)

(** C6.  In every epoch that completes, the checkpoint file is written
    if and only if validation ran and its mean loss is strictly below the
    best seen so far, and [min_val_loss] changes then and only then (to
    that loss).  Over a whole run, which starts from [+inf], the epochs
    that write the checkpoint are the strict improvements, in order.  A
    loss equal to the best seen writes nothing.  With the validation
    losses 0.5, 0.3, 0.4, 0.2 the checkpoint is written in epochs 0, 1
    and 3. *)
Theorem C6_checkpoint_iff_strictly_better :
  (forall (n_train_batches : Z) (valid_loss_at : Z -> float)
          (args : Namespace),
      (forall (model_path : string) (epoch : Z) (st st' : state),
          run (epoch_body n_train_batches valid_loss_at args model_path
                 epoch) st = (Ok tt, st') ->
          exists delta,
            trace st' = trace st ++ delta /\
            saves delta
            = (if improves valid_loss_at args (min_val_loss st) epoch
               then [(Some epoch, checkpoint_file args model_path)]
               else []) /\
            min_val_loss st'
            = (if improves valid_loss_at args (min_val_loss st) epoch
               then valid_loss_at epoch
               else min_val_loss st)) /\
      (forall (date_time : datetime) (st st' : state),
          run (main n_train_batches valid_loss_at args date_time) st
          = (Ok tt, st') ->
          exists delta,
            trace st' = trace st ++ delta /\
            epochs_saving (checkpoint_file args (model_path_of date_time))
              delta
            = records valid_loss_at args PosInf (range (n_epochs args)) /\
            min_val_loss st'
            = best_after valid_loss_at args PosInf
                (range (n_epochs args))) /\
      (forall (best : float) (epoch : Z),
          valid_loss_at epoch = best ->
          improves valid_loss_at args best epoch = false)) /\
  (let v := losses_at [Finite 0.5; Finite 0.3; Finite 0.4; Finite 0.2] in
   let args := demo_args 4 1 in
   let outcome := run (main 2 v args demo_time) initial in
   fst outcome = Ok tt /\
   epochs_saving (checkpoint_file args (model_path_of demo_time))
     (trace (snd outcome)) = [0; 1; 3]).
Proof.
  split; [|vm_compute; split; reflexivity].
  intros n_train_batches valid_loss_at args. split; [|split].
  - intros model_path epoch st st' H.
    apply epoch_body_ok_inv in H. destruct H as [_ ->].
    eexists. split; [reflexivity|]. split.
    + apply saves_epoch_effects.
    + reflexivity.
  - intros date_time st st' H. apply main_ok_inv in H. subst st'.
    eexists. split; [reflexivity|]. split; [|reflexivity].
    unfold epochs_saving.
    rewrite saves_main_effects, epochs_saving_checkpoint.
    cbn [flat_map fst]. apply app_nil_r.
  - intros best epoch <-. unfold improves.
    rewrite float_lt_irrefl. apply andb_false_r.
Qed.

Lemma C6_witness :
  exists delta,
    trace (after initial (Finite 0.2)
             (main_effects 2
                (losses_at [Finite 0.5; Finite 0.3; Finite 0.4; Finite 0.2])
                (demo_args 4 1) demo_time))
    = trace initial ++ delta /\
    epochs_saving (checkpoint_file (demo_args 4 1) (model_path_of demo_time))
      delta
    = records (losses_at [Finite 0.5; Finite 0.3; Finite 0.4; Finite 0.2])
        (demo_args 4 1) PosInf (range (n_epochs (demo_args 4 1))) /\
    min_val_loss (after initial (Finite 0.2)
             (main_effects 2
                (losses_at [Finite 0.5; Finite 0.3; Finite 0.4; Finite 0.2])
                (demo_args 4 1) demo_time))
    = best_after (losses_at [Finite 0.5; Finite 0.3; Finite 0.4; Finite 0.2])
        (demo_args 4 1) PosInf (range (n_epochs (demo_args 4 1))).
Proof.
  apply (proj1 (proj2 (proj1 C6_checkpoint_iff_strictly_better 2
                         (losses_at [Finite 0.5; Finite 0.3; Finite 0.4;
                                     Finite 0.2])
                         (demo_args 4 1)))
           demo_time initial).
  vm_compute. reflexivity.
Defined.

(** C7.  A run of [main] that completes ends with the final save; that
    file is written exactly once in the run, whatever the validation
    losses were, and it is not the checkpoint file. *)
Theorem C7_final_save_exactly_once :
  forall (n_train_batches : Z) (valid_loss_at : Z -> float)
         (args : Namespace) (date_time : datetime) (st st' : state),
    run (main n_train_batches valid_loss_at args date_time) st
    = (Ok tt, st') ->
    exists delta,
      trace st'
      = trace st ++ delta ++ [TorchSave None (save_path_of args date_time)] /\
      times_saved (save_path_of args date_time)
        (delta ++ [TorchSave None (save_path_of args date_time)]) = 1%nat /\
      save_path_of args date_time
      <> checkpoint_file args (model_path_of date_time).
Proof.
  intros n_train_batches valid_loss_at args date_time st st' H.
  apply main_ok_inv in H. subst st'.
  exists ([MakeDirs (model_path_of date_time);
           MakeDirs (model_path_of date_time ++ "/log")%string] ++
          loop_effects n_train_batches valid_loss_at args
            (model_path_of date_time) PosInf (range (n_epochs args))).
  split; [|split].
  - cbn [trace after]. unfold main_effects.
    now rewrite <- !app_assoc.
  - pose proof (times_saved_main_effects n_train_batches valid_loss_at
                  args date_time) as Hc.
    unfold main_effects in Hc. now rewrite <- !app_assoc.
  - apply save_path_not_checkpoint.
Qed.

Lemma C7_witness :
  exists delta,
    trace (after initial PosInf (main_effects 2 (fun _ => NaN)
                                (demo_args 4 1) demo_time))
    = trace initial ++ delta
        ++ [TorchSave None (save_path_of (demo_args 4 1) demo_time)] /\
    times_saved (save_path_of (demo_args 4 1) demo_time)
      (delta ++ [TorchSave None (save_path_of (demo_args 4 1) demo_time)])
    = 1%nat /\
    save_path_of (demo_args 4 1) demo_time
    <> checkpoint_file (demo_args 4 1) (model_path_of demo_time).
Proof.
  apply (C7_final_save_exactly_once 2 (fun _ => NaN) (demo_args 4 1)
           demo_time initial).
  vm_compute. reflexivity.
Defined.

(** C10.  With [valid_freq >= 1] and [n_epochs >= 1] a run of [main] that
    completes has validated in epoch 0. *)
Theorem C10_validation_in_epoch_zero :
  forall (n_train_batches : Z) (valid_loss_at : Z -> float)
         (args : Namespace) (date_time : datetime) (st st' : state),
    1 <= valid_freq args ->
    1 <= n_epochs args ->
    run (main n_train_batches valid_loss_at args date_time) st
    = (Ok tt, st') ->
    validates args 0 = true /\
    exists delta,
      trace st' = trace st ++ delta /\
      In (ValidPhase 0 (valid_loss_at 0)) delta.
Proof.
  intros n_train_batches valid_loss_at args date_time st st' Hvf Hn H.
  assert (Hv : validates args 0 = true).
  { unfold validates. now rewrite Z.mod_0_l by lia. }
  split; [assumption|].
  apply main_ok_inv in H. subst st'.
  eexists. split; [reflexivity|].
  unfold main_effects. rewrite (range_pos _ Hn).
  cbn [loop_effects]. apply in_or_app. right.
  apply in_or_app. left. apply in_or_app. left.
  now apply validation_in_epoch_effects.
Qed.

Lemma C10_witness :
  validates (demo_args 4 3) 0 = true /\
  exists delta,
    trace (after initial (Finite 0.2)
             (main_effects 2
                (losses_at [Finite 0.5; Finite 0.3; Finite 0.4; Finite 0.2])
                (demo_args 4 3) demo_time))
    = trace initial ++ delta /\
    In (ValidPhase 0
          (losses_at [Finite 0.5; Finite 0.3; Finite 0.4; Finite 0.2] 0))
       delta.
Proof.
  apply (C10_validation_in_epoch_zero 2
           (losses_at [Finite 0.5; Finite 0.3; Finite 0.4; Finite 0.2])
           (demo_args 4 3) demo_time initial).
  - vm_compute. discriminate.
  - vm_compute. discriminate.
  - vm_compute. reflexivity.
Defined.

(* ================================================================== *)
(** * Further properties of the code                                   *)
(* ================================================================== *)

Import Accessors Params MoreSpec LoadersMoreFacts TrainMoreFacts.

(** ** [H5Dataset]: lookups *)



(** X2.  Locating inverts the layout of the samples: when all runs have
    at least [skip] steps, the sample at offset [j] of run [r] has the
    valid index [boundaries[r] + j], and that index is located at
    [(r, j)].  Every pair [(r, j)] with [0 <= j < L_r - skip] is reached. *)
Theorem X2_locate_inverts_layout :
  forall (F : Type) (fs : string -> option (H5.file F))
         (path mode : string) (skip : Z) (w w' : list string)
         (ds : H5Dataset F) (Ls : list Z) (r j : Z),
    run (__init__ fs path mode skip) w = (Ok ds, w') ->
    run_lengths ds = Ok Ls ->
    Forall (fun L => skip <= L) Ls ->
    0 <= r < n_groups ds ->
    0 <= j < nth (Z.to_nat r) Ls 0 - skip ->
    exists n,
      run (@__len__ F) ds = (Ok n, ds) /\
      0 <= boundary ds r + j < n /\
      run (@locate F (boundary ds r + j)) ds = (Ok (r, j), ds).
Proof.
  intros F fs path mode skip w w' ds Ls r j Hinit HLs Hall Hr Hj.
  destruct (init_ok fs _ _ _ _ _ _ Hinit)
    as [Ls' [_ [_ [_ [Hskip [_ [HLs' [Hb Hn]]]]]]]].
  assert (Ls' = Ls) by congruence. subst Ls'.
  pose proof (boundary_diff ds skip Ls Hn HLs Hb r Hr) as Hd.
  destruct (locate_in_bucket ds skip Ls Hn HLs Hb (boundary ds r + j) r
              Hall Hr ltac:(lia)) as [Hi Hloc].
  exists (sum (counts skip Ls)). split; [now apply len_run|].
  split; [assumption|].
  rewrite Hloc. repeat f_equal. lia.
Qed.

Lemma X2_witness :
  exists n,
    run (@__len__ Z) (demo_dataset [10; 20]%nat 1)
    = (Ok n, demo_dataset [10; 20]%nat 1) /\
    0 <= boundary (demo_dataset [10; 20]%nat 1) 1 + 18 < n /\
    run (@locate Z (boundary (demo_dataset [10; 20]%nat 1) 1 + 18))
      (demo_dataset [10; 20]%nat 1)
    = (Ok (1, 18), demo_dataset [10; 20]%nat 1).
Proof.
  apply (X2_locate_inverts_layout Z (demo_fs [10; 20]%nat)
           "data" "train" 1 [] ["data/train_data.h5"]
           (demo_dataset [10; 20]%nat 1) [10; 20] 1 18).
  - vm_compute. reflexivity.
  - vm_compute. reflexivity.
  - repeat constructor; lia.
  - vm_compute. split; [discriminate|reflexivity].
  - vm_compute. split; [discriminate|reflexivity].
Defined.

(** X3.  Samples chain along a run: when the sample of index [i] lies at
    offset [j] of its run and offset [j + skip] is a sample of the same
    run, the target of sample [i] is the input of sample [i + skip]. *)
Theorem X3_target_is_input_skip_later :
  forall (F F32 : Type) (to_float32 : F -> F32)
         (fs : string -> option (H5.file F))
         (path mode : string) (skip : Z) (w w' : list string)
         (ds : H5Dataset F) (Ls : list Z) (n i r j : Z),
    run (__init__ fs path mode skip) w = (Ok ds, w') ->
    well_formed_store (h5f ds) ->
    run_lengths ds = Ok Ls ->
    0 <= skip ->
    run (@__len__ F) ds = (Ok n, ds) ->
    0 <= i < n ->
    run (@locate F i) ds = (Ok (r, j), ds) ->
    j + skip < nth (Z.to_nat r) Ls 0 - skip ->
    exists a b c,
      run (__getitem__ to_float32 i) ds = (Ok (a, b), ds) /\
      run (__getitem__ to_float32 (i + skip)) ds = (Ok (b, c), ds) /\
      i + skip < n.
Proof.
  intros F F32 to_float32 fs path mode skip w w' ds Ls n i r j
         Hinit Hwf HLs Hsk Hlen Hi Hloc Hnext.
  destruct (init_ok fs _ _ _ _ _ _ Hinit)
    as [Ls' [_ [_ [_ [Hskip [_ [HLs' [Hb Hn]]]]]]]].
  assert (Ls' = Ls) by congruence. subst Ls'.
  rewrite (len_run ds skip Ls Hb) in Hlen. injection Hlen as <-.
  destruct (locate_bucket ds skip Ls Hn HLs Hb i r j Hi Hloc)
    as [Hasc [Hr [Hbucket [Hj Hjr]]]].
  pose proof (ascending_runs_long_enough ds skip Ls Hn HLs Hb Hasc) as Hall.
  pose proof (boundary_diff ds skip Ls Hn HLs Hb r Hr) as Hd.
  destruct (locate_in_bucket ds skip Ls Hn HLs Hb (i + skip) r
              Hall Hr ltac:(lia)) as [Hi' Hloc'].
  replace (i + skip - boundary ds r) with (j + skip) in Hloc' by lia.
  rewrite (getitem_run ds skip Hskip F32 to_float32 i r j Hloc).
  rewrite (getitem_run ds skip Hskip F32 to_float32 (i + skip) r
             (j + skip) Hloc').
  rewrite (read_field_ok ds Ls Hn HLs F32 to_float32 r j Hwf Hr) by lia.
  rewrite (read_field_ok ds Ls Hn HLs F32 to_float32 r (j + skip) Hwf Hr)
    by lia.
  rewrite (read_field_ok ds Ls Hn HLs F32 to_float32 r (j + skip + skip)
             Hwf Hr) by lia.
  cbn [fst rbind]. do 3 eexists. repeat split; lia.
Qed.

Lemma X3_witness :
  exists a b c,
    run (__getitem__ (fun x : Z => x) 9) (demo_dataset [10; 20]%nat 2)
    = (Ok (a, b), demo_dataset [10; 20]%nat 2) /\
    run (__getitem__ (fun x : Z => x) (9 + 2)) (demo_dataset [10; 20]%nat 2)
    = (Ok (b, c), demo_dataset [10; 20]%nat 2) /\
    9 + 2 < 26.
Proof.
  apply (X3_target_is_input_skip_later Z Z (fun x : Z => x)
           (demo_fs [10; 20]%nat) "data" "train" 2 []
           ["data/train_data.h5"] (demo_dataset [10; 20]%nat 2)
           [10; 20] 26 9 1 1).
  - vm_compute. reflexivity.
  - vm_compute. repeat constructor.
  - vm_compute. reflexivity.
  - lia.
  - vm_compute. reflexivity.
  - lia.
  - vm_compute. reflexivity.
  - vm_compute. reflexivity.
Defined.





(** ** [H5Dataset]: construction *)

(** X6.  With a valid mode, the constructor opens the one file
    [path/mode_data.h5]; when it is missing the constructor raises
    [FileNotFoundError] for that file after that single call. *)
Theorem X6_missing_file :
  forall (F : Type) (fs : string -> option (H5.file F))
         (path mode : string) (skip : Z) (w : list string),
    In mode ["train"; "valid"; "test"] ->
    fs (path ++ "/" ++ mode ++ "_data.h5")%string = None ->
    run (__init__ fs path mode skip) w
    = (Raise (FileNotFoundError (path ++ "/" ++ mode ++ "_data.h5")%string),
       w ++ [(path ++ "/" ++ mode ++ "_data.h5")%string]).
Proof.
  intros F fs path mode skip w Hmode Hfs. apply str_in_In in Hmode.
  unfold run, __init__. rewrite Hmode. cbn [negb].
  rewrite bind_run, h5py_File_run, Hfs. reflexivity.
Qed.

Lemma X6_witness :
  run (__init__ (demo_fs [10; 20]%nat) "data" "valid" 1) []
  = (Raise (FileNotFoundError "data/valid_data.h5"), ["data/valid_data.h5"]).
Proof.
  apply (X6_missing_file Z (demo_fs [10; 20]%nat) "data" "valid" 1 []).
  - right. left. reflexivity.
  - reflexivity.
Defined.

(** X7.  Construction reads the [time] dataset of every group and
    nothing else of the groups.  When every group has one, the dataset is
    built, whatever else the groups hold or lack; when some group of a
    store with distinct group names has none, the constructor raises
    [KeyError('time')]. *)
Theorem X7_construction_reads_time_only :
  forall (F : Type) (fs : string -> option (H5.file F))
         (path mode : string) (skip : Z) (w : list string) (f : H5.file F),
    In mode ["train"; "valid"; "test"] ->
    fs (path ++ "/" ++ mode ++ "_data.h5")%string = Some f ->
    (forallb (fun p => has_time (snd p)) f = true ->
     exists ds,
       run (__init__ fs path mode skip) w
       = (Ok ds, w ++ [(path ++ "/" ++ mode ++ "_data.h5")%string]) /\
       h5f ds = f /\ group_names ds = H5.keys f /\
       n_groups ds = len f /\ Loaders.skip ds = skip) /\
    (NoDup (H5.keys f) ->
     forallb (fun p => has_time (snd p)) f = false ->
     run (__init__ fs path mode skip) w
     = (Raise (KeyError "time"),
        w ++ [(path ++ "/" ++ mode ++ "_data.h5")%string])).
Proof.
  intros F fs path mode skip w f Hmode Hfs. apply str_in_In in Hmode.
  unfold run, __init__. rewrite Hmode. cbn [negb].
  rewrite bind_run, h5py_File_run, Hfs, bind_run, comprehension_lift.
  split.
  - intros Hall. rewrite forallb_forall in Hall.
    destruct (rmap_time_steps_all f (H5.keys f)) as [Ls HLs].
    + intros x Hx. exact Hx.
    + apply Forall_forall. exact Hall.
    + rewrite HLs. cbn [rbind]. unfold ret. eexists. split; [reflexivity|].
      cbn. unfold len, H5.keys. now rewrite length_map.
  - intros Hnd Hmiss.
    rewrite (rmap_time_steps_missing f f Hnd (fun x Hx => Hx) Hmiss).
    reflexivity.
Qed.

Lemma X7_witness :
  (exists ds,
      run (__init__ (demo_fs_holding demo_file_without_fields)
             "data" "train" 1) []
      = (Ok ds, [] ++ ["data/train_data.h5"]) /\
      h5f ds = demo_file_without_fields /\
      group_names ds = H5.keys demo_file_without_fields /\
      n_groups ds = len demo_file_without_fields /\
      Loaders.skip ds = 1) /\
  run (__init__ (demo_fs_holding demo_file_without_time)
         "data" "train" 1) []
  = (Raise (KeyError "time"), [] ++ ["data/train_data.h5"]).
Proof.
  split.
  - apply (proj1 (X7_construction_reads_time_only Z
                    (demo_fs_holding demo_file_without_fields)
                    "data" "train" 1 [] demo_file_without_fields
                    (or_introl eq_refl) eq_refl)).
    reflexivity.
  - apply (proj2 (X7_construction_reads_time_only Z
                    (demo_fs_holding demo_file_without_time)
                    "data" "train" 1 [] demo_file_without_time
                    (or_introl eq_refl) eq_refl)).
    + repeat constructor; cbn; intuition discriminate.
    + reflexivity.
Defined.

(** X8.  A missing [field_values] dataset is found on access, not at
    construction: a valid index that is located in a run without it
    raises [KeyError('field_values')]. *)
Theorem X8_missing_fields_raise_on_access :
  forall (F F32 : Type) (to_float32 : F -> F32)
         (fs : string -> option (H5.file F))
         (path mode : string) (skip : Z) (w w' : list string)
         (ds : H5Dataset F) (n i r j : Z) (grp : H5.group F),
    run (__init__ fs path mode skip) w = (Ok ds, w') ->
    run (@__len__ F) ds = (Ok n, ds) ->
    0 <= i < n ->
    run (@locate F i) ds = (Ok (r, j), ds) ->
    H5.get_group (h5f ds) (nth (Z.to_nat r) (group_names ds) "") = Ok grp ->
    H5.field_values grp = None ->
    run (__getitem__ to_float32 i) ds
    = (Raise (KeyError "field_values"), ds).
Proof.
  intros F F32 to_float32 fs path mode skip w w' ds n i r j grp
         Hinit Hlen Hi Hloc Hg Hfv.
  destruct (init_ok fs _ _ _ _ _ _ Hinit)
    as [Ls [_ [_ [_ [Hskip [_ [HLs [Hb Hn]]]]]]]].
  rewrite (len_run ds skip Ls Hb) in Hlen. injection Hlen as <-.
  destruct (locate_bucket ds skip Ls Hn HLs Hb i r j Hi Hloc)
    as [_ [Hr _]].
  rewrite (getitem_run ds skip Hskip F32 to_float32 i r j Hloc).
  rewrite read_field_run.
  rewrite (getitem_nonneg _ _ "") by (rewrite <- Hn; lia).
  cbn [rbind]. rewrite Hg. cbn [rbind]. rewrite Hfv. reflexivity.
Qed.

Lemma X8_witness :
  run (__getitem__ (fun x : Z => x) 2)
    (demo_dataset_on demo_file_without_fields 1)
  = (Raise (KeyError "field_values"),
     demo_dataset_on demo_file_without_fields 1).
Proof.
  apply (X8_missing_fields_raise_on_access Z Z (fun x : Z => x)
           (demo_fs_holding demo_file_without_fields) "data" "train" 1 []
           ["data/train_data.h5"]
           (demo_dataset_on demo_file_without_fields 1) 4 2 0 2
           (snd (nth 0 demo_file_without_fields
                   ("", demo_run 0 0)))).
  - vm_compute. reflexivity.
  - vm_compute. reflexivity.
  - lia.
  - vm_compute. reflexivity.
  - vm_compute. reflexivity.
  - reflexivity.
Defined.

(** ** [H5Dataset]: the other accessors *)

(** X9.  [get_simulation] and [__getitem__] agree: for a valid index
    located at offset [j] of run [r] of a well-formed store,
    [get_simulation(r)] returns as many times as field entries, and the
    sample is the pair of its field entries [j] and [j + skip]. *)
Theorem X9_sample_is_pair_of_simulation_entries :
  forall (F F32 : Type) (to_float32 : F -> F32)
         (fs : string -> option (H5.file F))
         (path mode : string) (skip : Z) (w w' : list string)
         (ds : H5Dataset F) (n i r j : Z),
    run (__init__ fs path mode skip) w = (Ok ds, w') ->
    well_formed_store (h5f ds) ->
    0 <= skip ->
    run (@__len__ F) ds = (Ok n, ds) ->
    0 <= i < n ->
    run (@locate F i) ds = (Ok (r, j), ds) ->
    exists times field,
      run (get_simulation to_float32 r) ds = (Ok (times, field), ds) /\
      len times = len field /\
      0 <= j /\ j + skip < len field /\
      run (__getitem__ to_float32 i) ds
      = (Ok (nth (Z.to_nat j) field [],
             nth (Z.to_nat (j + skip)) field []), ds).
Proof.
  intros F F32 to_float32 fs path mode skip w w' ds n i r j
         Hinit Hwf Hsk Hlen Hi Hloc.
  destruct (init_ok fs _ _ _ _ _ _ Hinit)
    as [Ls [_ [_ [_ [Hskip [_ [HLs [Hb Hn]]]]]]]].
  rewrite (len_run ds skip Ls Hb) in Hlen. injection Hlen as <-.
  destruct (locate_bucket ds skip Ls Hn HLs Hb i r j Hi Hloc)
    as [_ [Hr [_ [_ Hjr]]]].
  destruct (run_fields_length ds Ls Hn HLs r Hwf Hr)
    as [grp [Hg [Hfv Hfl]]].
  destruct (well_formed_group _ _ _ Hwf Hg) as [t [fv [Ht [Hfv' Hlen]]]].
  assert (fv = run_fields ds r) by congruence. subst fv. clear Hfv'.
  rewrite get_simulation_run, group_of_run.
  rewrite (getitem_nonneg _ _ "") by (rewrite <- Hn; lia).
  cbn [rbind fst]. rewrite Hg. cbn [rbind]. rewrite Ht, Hfv.
  cbn [H5.get_dataset rbind].
  do 2 eexists. split; [reflexivity|].
  unfold len in *. rewrite !length_map. unfold H5.snapshot in *.
  split; [f_equal; symmetry; exact Hlen|]. split; [lia|]. split; [lia|].
  rewrite (getitem_run ds skip Hskip F32 to_float32 i r j Hloc).
  rewrite (read_field_ok ds Ls Hn HLs F32 to_float32 r j Hwf Hr)
    by (unfold len; lia).
  rewrite (read_field_ok ds Ls Hn HLs F32 to_float32 r (j + skip) Hwf Hr)
    by (unfold len; lia).
  cbn [fst rbind]. unfold add_channel.
  assert (Hnth : forall k : Z,
             0 <= k < Z.of_nat (List.length (run_fields ds r)) ->
             nth (Z.to_nat k)
               (map (fun a : tensor2 F32 => [a])
                  (map (map (map to_float32)) (run_fields ds r))) []
             = [map (map to_float32)
                  (nth (Z.to_nat k) (run_fields ds r) [])]).
  { intros k Hk. unfold H5.snapshot in *. rewrite map_map.
    rewrite (nth_indep _ []
               ((fun a => [map (map to_float32) a]) []))
      by (rewrite length_map; lia).
    apply (map_nth (fun a => [map (map to_float32) a])). }
  unfold H5.snapshot in *. rewrite !Hnth by lia. reflexivity.
Qed.

Lemma X9_witness :
  exists times field,
    run (get_simulation (fun x : Z => x) 1) (demo_dataset [10; 20]%nat 1)
    = (Ok (times, field), demo_dataset [10; 20]%nat 1) /\
    len times = len field /\
    0 <= 18 /\ 18 + 1 < len field /\
    run (__getitem__ (fun x : Z => x) 27) (demo_dataset [10; 20]%nat 1)
    = (Ok (nth (Z.to_nat 18) field [], nth (Z.to_nat (18 + 1)) field []),
       demo_dataset [10; 20]%nat 1).
Proof.
  apply (X9_sample_is_pair_of_simulation_entries Z Z (fun x : Z => x)
           (demo_fs [10; 20]%nat) "data" "train" 1 []
           ["data/train_data.h5"] (demo_dataset [10; 20]%nat 1)
           28 27 1 18).
  - vm_compute. reflexivity.
  - vm_compute. repeat constructor.
  - lia.
  - vm_compute. reflexivity.
  - lia.
  - vm_compute. reflexivity.
Defined.

(** X10.  [get_simulation] takes its group id as a Python list index: an
    id in [[-n_groups, 0)] counts from the last run, and an id outside
    [[-n_groups, n_groups)] raises [IndexError]. *)
Theorem X10_get_simulation_group_ids :
  forall (F F32 : Type) (to_float32 : F -> F32)
         (fs : string -> option (H5.file F))
         (path mode : string) (skip : Z) (w w' : list string)
         (ds : H5Dataset F) (g : Z),
    run (__init__ fs path mode skip) w = (Ok ds, w') ->
    (- n_groups ds <= g < 0 ->
     run (get_simulation to_float32 g) ds
     = run (get_simulation to_float32 (g + n_groups ds)) ds) /\
    (g < - n_groups ds \/ n_groups ds <= g ->
     run (get_simulation to_float32 g) ds = (Raise IndexError, ds)).
Proof.
  intros F F32 to_float32 fs path mode skip w w' ds g Hinit.
  destruct (init_ok fs _ _ _ _ _ _ Hinit)
    as [Ls [_ [_ [_ [_ [_ [_ [_ Hn]]]]]]]].
  split; intros Hg; rewrite !get_simulation_run.
  - now rewrite (group_of_wraps ds Hn g Hg).
  - now rewrite (group_of_out_of_range ds Hn g Hg).
Qed.

Lemma X10_witness :
  run (get_simulation (fun x : Z => x) (-1)) (demo_dataset [10; 20]%nat 1)
  = run (get_simulation (fun x : Z => x)
           (-1 + n_groups (demo_dataset [10; 20]%nat 1)))
      (demo_dataset [10; 20]%nat 1) /\
  run (get_simulation (fun x : Z => x) 2) (demo_dataset [10; 20]%nat 1)
  = (Raise IndexError, demo_dataset [10; 20]%nat 1).
Proof.
  split.
  - apply (proj1 (X10_get_simulation_group_ids Z Z (fun x : Z => x)
                    (demo_fs [10; 20]%nat) "data" "train" 1 []
                    ["data/train_data.h5"] (demo_dataset [10; 20]%nat 1)
                    (-1) eq_refl)).
    vm_compute. split; [discriminate|reflexivity].
  - apply (proj2 (X10_get_simulation_group_ids Z Z (fun x : Z => x)
                    (demo_fs [10; 20]%nat) "data" "train" 1 []
                    ["data/train_data.h5"] (demo_dataset [10; 20]%nat 1)
                    2 eq_refl)).
    right. vm_compute. discriminate.
Defined.

(** X11.  When all groups of the store carry the same coordinate grids,
    [get_meshgrid] returns those grids, converted, for every group id in
    [[-n_groups, n_groups)], the default 0 included; for an id outside
    that range, as for the default on a store without groups, it raises
    [IndexError]. *)
Theorem X11_get_meshgrid_shared_grid :
  forall (F F32 : Type) (to_float32 : F -> F32)
         (fs : string -> option (H5.file F))
         (path mode : string) (skip : Z) (w w' : list string)
         (ds : H5Dataset F) (x y : H5.snapshot F) (g : Z),
    run (__init__ fs path mode skip) w = (Ok ds, w') ->
    Forall (fun p => H5.x_coordinates (snd p) = Some x /\
                     H5.y_coordinates (snd p) = Some y) (h5f ds) ->
    (- n_groups ds <= g < n_groups ds ->
     run (get_meshgrid to_float32 g) ds
     = (Ok (map (map to_float32) x, map (map to_float32) y), ds)) /\
    (g < - n_groups ds \/ n_groups ds <= g ->
     run (get_meshgrid to_float32 g) ds = (Raise IndexError, ds)).
Proof.
  intros F F32 to_float32 fs path mode skip w w' ds x y g Hinit Hgrid.
  destruct (init_ok fs _ _ _ _ _ _ Hinit)
    as [Ls [_ [_ [_ [_ [Hnames [_ [_ Hn]]]]]]]].
  split; intros Hg; rewrite get_meshgrid_run.
  - rewrite group_of_run.
    destruct (getitem_in_range (group_names ds) g "")
      as [name [Hname Hin]]; [rewrite <- Hn; lia|].
    rewrite Hname. cbn [rbind fst]. rewrite Hnames in Hin.
    destruct (get_group_of_key _ _ Hin) as [p [Hp [_ Hgrp]]].
    rewrite Hgrp. cbn [rbind].
    rewrite Forall_forall in Hgrid. destruct (Hgrid p Hp) as [-> ->].
    reflexivity.
  - now rewrite (group_of_out_of_range ds Hn g Hg).
Qed.

Lemma X11_witness :
  run (get_meshgrid (fun x : Z => x) 0) (demo_dataset [10; 20]%nat 1)
  = (Ok (map (map (fun x : Z => x)) [[0]],
         map (map (fun x : Z => x)) [[0]]),
     demo_dataset [10; 20]%nat 1) /\
  run (get_meshgrid (fun x : Z => x) 0) (demo_dataset [] 1)
  = (Raise IndexError, demo_dataset [] 1).
Proof.
  split.
  - apply (proj1 (X11_get_meshgrid_shared_grid Z Z (fun x : Z => x)
                    (demo_fs [10; 20]%nat) "data" "train" 1 []
                    ["data/train_data.h5"] (demo_dataset [10; 20]%nat 1)
                    [[0]] [[0]] 0 eq_refl
                    ltac:(vm_compute; repeat constructor))).
    vm_compute. split; [discriminate|reflexivity].
  - apply (proj2 (X11_get_meshgrid_shared_grid Z Z (fun x : Z => x)
                    (demo_fs []) "data" "train" 1 []
                    ["data/train_data.h5"] (demo_dataset [] 1)
                    [[0]] [[0]] 0 eq_refl
                    ltac:(vm_compute; repeat constructor))).
    right. vm_compute. discriminate.
Defined.

(** ** [main]: when it completes and when it does not *)







(** ** [main]: what a completed run has done *)

(** X15.  At the end of a completed run [min_val_loss] is the loss of
    the last checkpoint written ([+inf] when none was), and no validation
    of the run had a loss strictly below it: the checkpoint on disk is
    that of the lowest validation loss. *)
Theorem X15_last_checkpoint_has_lowest_loss :
  forall (n_train_batches : Z) (valid_loss_at : Z -> float)
         (args : Namespace) (date_time : datetime) (st st' : state),
    run (main n_train_batches valid_loss_at args date_time) st
    = (Ok tt, st') ->
    (forall e, 0 <= e < n_epochs args -> validates args e = true ->
       float_lt (valid_loss_at e) (min_val_loss st') = false) /\
    exists delta,
      trace st' = trace st ++ delta /\
      min_val_loss st'
      = last (map valid_loss_at
                (epochs_saving
                   (checkpoint_file args (model_path_of date_time)) delta))
             PosInf.
Proof.
  intros n_train_batches valid_loss_at args date_time st st' H.
  apply main_ok_inv in H. subst st'. cbn [min_val_loss after]. split.
  - intros e He Hv. apply best_after_is_lowest; [|assumption].
    now apply range_In.
  - eexists. split; [reflexivity|].
    unfold epochs_saving.
    rewrite saves_main_effects, epochs_saving_checkpoint.
    cbn [flat_map fst]. rewrite app_nil_r. apply best_after_last.
Qed.

Lemma X15_witness :
  (forall e, 0 <= e < n_epochs (demo_args 4 1) ->
     validates (demo_args 4 1) e = true ->
     float_lt
       (losses_at [Finite 0.5; Finite 0.3; Finite 0.4; Finite 0.2] e)
       (min_val_loss
          (after initial (Finite 0.2)
             (main_effects 2
                (losses_at [Finite 0.5; Finite 0.3; Finite 0.4; Finite 0.2])
                (demo_args 4 1) demo_time))) = false) /\
  exists delta,
    trace (after initial (Finite 0.2)
             (main_effects 2
                (losses_at [Finite 0.5; Finite 0.3; Finite 0.4; Finite 0.2])
                (demo_args 4 1) demo_time))
    = trace initial ++ delta /\
    min_val_loss (after initial (Finite 0.2)
             (main_effects 2
                (losses_at [Finite 0.5; Finite 0.3; Finite 0.4; Finite 0.2])
                (demo_args 4 1) demo_time))
    = last (map (losses_at
                   [Finite 0.5; Finite 0.3; Finite 0.4; Finite 0.2])
              (epochs_saving
                 (checkpoint_file (demo_args 4 1) (model_path_of demo_time))
                 delta))
           PosInf.
Proof.
  apply (X15_last_checkpoint_has_lowest_loss 2
           (losses_at [Finite 0.5; Finite 0.3; Finite 0.4; Finite 0.2])
           (demo_args 4 1) demo_time initial).
  vm_compute. reflexivity.
Defined.

(** X16.  The checkpoints of a completed run have strictly falling
    validation losses: the first is below [+inf], each later one below
    the one before. *)
Theorem X16_checkpoint_losses_fall :
  forall (n_train_batches : Z) (valid_loss_at : Z -> float)
         (args : Namespace) (date_time : datetime) (st st' : state),
    run (main n_train_batches valid_loss_at args date_time) st
    = (Ok tt, st') ->
    exists delta,
      trace st' = trace st ++ delta /\
      strictly_falling
        (PosInf ::
         map valid_loss_at
           (epochs_saving
              (checkpoint_file args (model_path_of date_time)) delta))
      = true.
Proof.
  intros n_train_batches valid_loss_at args date_time st st' H.
  apply main_ok_inv in H. subst st'.
  eexists. split; [reflexivity|].
  unfold epochs_saving.
  rewrite saves_main_effects, epochs_saving_checkpoint.
  cbn [flat_map fst]. rewrite app_nil_r. apply strictly_falling_records.
Qed.

Lemma X16_witness :
  exists delta,
    trace (after initial (Finite 0.2)
             (main_effects 2
                (losses_at [Finite 0.5; Finite 0.3; Finite 0.4; Finite 0.2])
                (demo_args 4 1) demo_time))
    = trace initial ++ delta /\
    strictly_falling
      (PosInf ::
       map (losses_at [Finite 0.5; Finite 0.3; Finite 0.4; Finite 0.2])
         (epochs_saving
            (checkpoint_file (demo_args 4 1) (model_path_of demo_time))
            delta))
    = true.
Proof.
  apply (X16_checkpoint_losses_fall 2
           (losses_at [Finite 0.5; Finite 0.3; Finite 0.4; Finite 0.2])
           (demo_args 4 1) demo_time initial).
  vm_compute. reflexivity.
Defined.

(** X17.  A completed run has trained on every mini-batch of every epoch
    once, epoch by epoch and step by step, whether or not the epoch was
    validated. *)
Theorem X17_every_epoch_trains_every_batch :
  forall (n_train_batches : Z) (valid_loss_at : Z -> float)
         (args : Namespace) (date_time : datetime) (st st' : state),
    run (main n_train_batches valid_loss_at args date_time) st
    = (Ok tt, st') ->
    exists delta,
      trace st' = trace st ++ delta /\
      train_steps delta
      = flat_map (fun e => map (fun step => (e, step))
                             (range n_train_batches))
          (range (n_epochs args)).
Proof.
  intros n_train_batches valid_loss_at args date_time st st' H.
  apply main_ok_inv in H. subst st'.
  eexists. split; [reflexivity|].
  unfold main_effects. rewrite !train_steps_app.
  destruct (loop_effects_steps n_train_batches valid_loss_at args
              (model_path_of date_time) (range (n_epochs args)) PosInf)
    as [-> _].
  cbn [train_steps app]. apply app_nil_r.
Qed.

Lemma X17_witness :
  exists delta,
    trace (after initial PosInf
             (main_effects 2 (fun _ => NaN) (demo_args 4 3) demo_time))
    = trace initial ++ delta /\
    train_steps delta
    = flat_map (fun e => map (fun step => (e, step)) (range 2))
        (range (n_epochs (demo_args 4 3))).
Proof.
  apply (X17_every_epoch_trains_every_batch 2 (fun _ => NaN)
           (demo_args 4 3) demo_time initial).
  vm_compute. reflexivity.
Defined.

(** X18.  In a completed run validation happens in the epochs with
    [epoch % valid_freq == 0] and in no other, in order, and the
    scheduler is stepped once after each validation with that
    validation's loss, whether or not a checkpoint was written. *)
Theorem X18_scheduler_steps_follow_validations :
  forall (n_train_batches : Z) (valid_loss_at : Z -> float)
         (args : Namespace) (date_time : datetime) (st st' : state),
    run (main n_train_batches valid_loss_at args date_time) st
    = (Ok tt, st') ->
    exists delta,
      trace st' = trace st ++ delta /\
      validations delta
      = map (fun e => (e, valid_loss_at e))
          (filter (validates args) (range (n_epochs args))) /\
      scheduler_steps delta = validations delta.
Proof.
  intros n_train_batches valid_loss_at args date_time st st' H.
  apply main_ok_inv in H. subst st'.
  eexists. split; [reflexivity|].
  unfold main_effects. rewrite !validations_app, !scheduler_steps_app.
  destruct (loop_effects_steps n_train_batches valid_loss_at args
              (model_path_of date_time) (range (n_epochs args)) PosInf)
    as [_ [-> ->]].
  cbn [validations scheduler_steps app]. now rewrite app_nil_r.
Qed.

Lemma X18_witness :
  exists delta,
    trace (after initial (Finite 0.2)
             (main_effects 2
                (losses_at [Finite 0.5; Finite 0.3; Finite 0.4; Finite 0.2])
                (demo_args 4 3) demo_time))
    = trace initial ++ delta /\
    validations delta
    = map (fun e =>
             (e, losses_at [Finite 0.5; Finite 0.3; Finite 0.4; Finite 0.2]
                   e))
        (filter (validates (demo_args 4 3))
           (range (n_epochs (demo_args 4 3)))) /\
    scheduler_steps delta = validations delta.
Proof.
  apply (X18_scheduler_steps_follow_validations 2
           (losses_at [Finite 0.5; Finite 0.3; Finite 0.4; Finite 0.2])
           (demo_args 4 3) demo_time initial).
  vm_compute. reflexivity.
Defined.

(** ** The file names and the parameter count *)

(** X19.  The time stamp of the file names is ambiguous: its four numbers
    are written without separators, so a run started on the [1d]th of
    January and one started on the [d]th of November, at the same hour
    and minute, get the same time stamp, the same model directory and the
    same final file. *)
Theorem X19_time_stamp_is_ambiguous :
  forall (d h m : Z) (args : Namespace),
    1 <= d <= 9 ->
    {| month := 1; day := 10 + d; hour := h; minute := m |}
    <> {| month := 11; day := d; hour := h; minute := m |} /\
    timestring_of {| month := 1; day := 10 + d; hour := h; minute := m |}
    = timestring_of {| month := 11; day := d; hour := h; minute := m |} /\
    model_path_of {| month := 1; day := 10 + d; hour := h; minute := m |}
    = model_path_of {| month := 11; day := d; hour := h; minute := m |} /\
    save_path_of args
      {| month := 1; day := 10 + d; hour := h; minute := m |}
    = save_path_of args
        {| month := 11; day := d; hour := h; minute := m |}.
Proof.
  intros d h m args Hd.
  assert (Hts :
    timestring_of {| month := 1; day := 10 + d; hour := h; minute := m |}
    = timestring_of {| month := 11; day := d; hour := h; minute := m |}).
  { unfold timestring_of. cbn [month day hour minute].
    assert (Hc : d = 1 \/ d = 2 \/ d = 3 \/ d = 4 \/ d = 5 \/ d = 6 \/
                 d = 7 \/ d = 8 \/ d = 9) by lia.
    destruct Hc as [-> | [-> | [-> | [-> | [-> | [-> | [-> | [-> | ->]]]]]]]];
      reflexivity. }
  split; [intros H; injection H; lia|].
  split; [assumption|].
  unfold save_path_of, model_path_of. rewrite Hts. split; reflexivity.
Qed.

Lemma X19_witness :
  {| month := 1; day := 10 + 2; hour := 9; minute := 5 |}
  <> {| month := 11; day := 2; hour := 9; minute := 5 |} /\
  timestring_of {| month := 1; day := 10 + 2; hour := 9; minute := 5 |}
  = timestring_of {| month := 11; day := 2; hour := 9; minute := 5 |} /\
  model_path_of {| month := 1; day := 10 + 2; hour := 9; minute := 5 |}
  = model_path_of {| month := 11; day := 2; hour := 9; minute := 5 |} /\
  save_path_of (demo_args 4 1)
    {| month := 1; day := 10 + 2; hour := 9; minute := 5 |}
  = save_path_of (demo_args 4 1)
      {| month := 11; day := 2; hour := 9; minute := 5 |}.
Proof.
  apply (X19_time_stamp_is_ambiguous 2 9 5 (demo_args 4 1)). lia.
Defined.

(** X20.  In one model directory the checkpoint file determines
    [time_skip]: runs with different [time_skip] never write the same
    checkpoint file. *)
Theorem X20_checkpoint_file_determines_time_skip :
  forall (args args' : Namespace) (model_path : string),
    checkpoint_file args model_path = checkpoint_file args' model_path ->
    time_skip args = time_skip args'.
Proof.
  intros args args' model_path H. unfold checkpoint_file in H.
  apply append_inj_l in H.
  apply (append_inj_l "/checkpoint_model_tskip_") in H.
  apply append_inj_r in H. now apply str_of_int_inj.
Qed.

Lemma X20_witness :
  time_skip (demo_args 4 1) = time_skip (demo_args 7 3).
Proof.
  apply (X20_checkpoint_file_determines_time_skip
           (demo_args 4 1) (demo_args 7 3) "model_11395").
  reflexivity.
Defined.



(** ** [H5Dataset]: negative indices that do not raise *)

(** X22.  A negative index [i] that reaches into the last run
    ([len - L_last <= i], with [i + skip < len]) does not raise and does
    not count from the end of the dataset: it returns the sample of index
    [i + skip], a sample of the last run. *)
Theorem X22_negative_index_aliases_skip_later :
  forall (F F32 : Type) (to_float32 : F -> F32)
         (fs : string -> option (H5.file F))
         (path mode : string) (skip : Z) (w w' : list string)
         (ds : H5Dataset F) (Ls : list Z) (n i : Z),
    run (__init__ fs path mode skip) w = (Ok ds, w') ->
    well_formed_store (h5f ds) ->
    run_lengths ds = Ok Ls ->
    Forall (fun L => skip <= L) Ls ->
    0 <= skip ->
    1 <= n_groups ds ->
    run (@__len__ F) ds = (Ok n, ds) ->
    n - nth (Z.to_nat (n_groups ds - 1)) Ls 0 <= i < 0 ->
    i + skip < n ->
    0 <= i + skip /\
    exists a b,
      run (__getitem__ to_float32 (i + skip)) ds = (Ok (a, b), ds) /\
      run (__getitem__ to_float32 i) ds = (Ok (a, b), ds).
Proof.
  intros F F32 to_float32 fs path mode skip w w' ds Ls n i
         Hinit Hwf HLs Hall Hsk Hgroups Hlen Hi Hnext.
  destruct (init_ok fs _ _ _ _ _ _ Hinit)
    as [Ls' [_ [_ [_ [Hskip [_ [HLs' [Hb Hn]]]]]]]].
  assert (Ls' = Ls) by congruence. subst Ls'.
  rewrite (len_run ds skip Ls Hb) in Hlen. injection Hlen as <-.
  set (r := n_groups ds - 1) in *.
  assert (Hr : 0 <= r < n_groups ds) by (subst r; lia).
  pose proof (boundary_diff ds skip Ls Hn HLs Hb r Hr) as Hd.
  replace (r + 1) with (n_groups ds) in Hd by (subst r; lia).
  rewrite (boundary_total ds skip Ls Hn HLs Hb) in Hd.
  pose proof (boundaries_ascending ds skip Ls Hb Hall) as Hasc.
  pose proof (boundary_mono ds skip Ls Hn HLs Hb 0 r Hasc
                ltac:(lia) ltac:(lia)) as Hr0.
  rewrite (boundary_zero ds skip Ls Hb) in Hr0.
  split; [lia|].
  destruct (locate_in_bucket ds skip Ls Hn HLs Hb (i + skip) r Hall Hr)
    as [_ Hloc'].
  { replace (r + 1) with (n_groups ds) by (subst r; lia).
    rewrite (boundary_total ds skip Ls Hn HLs Hb). lia. }
  pose proof (locate_negative ds skip Ls Hb i Hall ltac:(lia)) as Hloc.
  destruct (run_fields_length ds Ls Hn HLs r Hwf Hr)
    as [grp [Hg [Hfv Hfl]]].
  rewrite (getitem_run ds skip Hskip F32 to_float32 (i + skip) _ _ Hloc').
  rewrite (read_field_ok ds Ls Hn HLs F32 to_float32 r _ Hwf Hr) by lia.
  rewrite (read_field_ok ds Ls Hn HLs F32 to_float32 r _ Hwf Hr) by lia.
  cbn [fst rbind]. do 2 eexists. split; [reflexivity|].
  rewrite (getitem_run ds skip Hskip F32 to_float32 i _ _ Hloc).
  rewrite !read_field_run.
  rewrite getitem_wraps by (rewrite <- Hn; lia).
  rewrite <- Hn. replace (-1 + n_groups ds) with r by (subst r; lia).
  rewrite (getitem_nonneg _ _ "") by (rewrite <- Hn; lia).
  cbn [rbind]. rewrite Hg. cbn [rbind]. rewrite Hfv.
  cbn [H5.get_dataset rbind].
  rewrite (getitem_negative (run_fields ds r) _ ([] : H5.snapshot F))
    by lia.
  rewrite (getitem_negative (run_fields ds r) _ ([] : H5.snapshot F))
    by lia.
  cbn [rbind fst]. unfold add_channel. rewrite Hfl.
  replace (i - sum (counts skip Ls) + nth (Z.to_nat r) Ls 0)
    with (i + skip - boundary ds r) by lia.
  replace (i - sum (counts skip Ls) + skip + nth (Z.to_nat r) Ls 0)
    with (i + skip - boundary ds r + skip) by lia.
  reflexivity.
Qed.

Lemma X22_witness :
  0 <= -1 + 1 /\
  exists a b,
    run (__getitem__ (fun x : Z => x) (-1 + 1)) (demo_dataset [20]%nat 1)
    = (Ok (a, b), demo_dataset [20]%nat 1) /\
    run (__getitem__ (fun x : Z => x) (-1)) (demo_dataset [20]%nat 1)
    = (Ok (a, b), demo_dataset [20]%nat 1).
Proof.
  apply (X22_negative_index_aliases_skip_later Z Z (fun x : Z => x)
           (demo_fs [20]%nat) "data" "train" 1 []
           ["data/train_data.h5"] (demo_dataset [20]%nat 1) [20] 19 (-1)).
  - vm_compute. reflexivity.
  - vm_compute. repeat constructor.
  - vm_compute. reflexivity.
  - repeat constructor; lia.
  - lia.
  - vm_compute. discriminate.
  - vm_compute. reflexivity.
  - vm_compute. split; [discriminate|reflexivity].
  - lia.
Defined.

(** ** [main]: how often it validates *)

(** X23.  With [valid_freq >= 1], a completed run of [n_epochs >= 0]
    epochs validates, and steps the scheduler,
    [ceil(n_epochs / valid_freq)] times. *)
Theorem X23_number_of_validations :
  forall (n_train_batches : Z) (valid_loss_at : Z -> float)
         (args : Namespace) (date_time : datetime) (st st' : state),
    1 <= valid_freq args ->
    0 <= n_epochs args ->
    run (main n_train_batches valid_loss_at args date_time) st
    = (Ok tt, st') ->
    exists delta,
      trace st' = trace st ++ delta /\
      len (validations delta)
      = (n_epochs args + valid_freq args - 1) / valid_freq args /\
      len (scheduler_steps delta)
      = (n_epochs args + valid_freq args - 1) / valid_freq args.
Proof.
  intros n_train_batches valid_loss_at args date_time st st' Hvf Hn H.
  apply main_ok_inv in H. subst st'.
  eexists. split; [reflexivity|].
  unfold main_effects. rewrite !validations_app, !scheduler_steps_app.
  destruct (loop_effects_steps n_train_batches valid_loss_at args
              (model_path_of date_time) (range (n_epochs args)) PosInf)
    as [_ [-> ->]].
  cbn [validations scheduler_steps app]. rewrite app_nil_r.
  assert (Hcount :
    len (map (fun e : Z => (e, valid_loss_at e))
           (filter (validates args) (range (n_epochs args))))
    = (n_epochs args + valid_freq args - 1) / valid_freq args).
  { pose proof (validated_count args (Z.to_nat (n_epochs args)) Hvf) as Hc.
    rewrite Z2Nat.id in Hc by assumption. rewrite <- Hc.
    unfold len, range. now rewrite length_map. }
  split; exact Hcount.
Qed.

Lemma X23_witness :
  exists delta,
    trace (after initial PosInf
             (main_effects 2 (fun _ => NaN) (demo_args 4 3) demo_time))
    = trace initial ++ delta /\
    len (validations delta)
    = (n_epochs (demo_args 4 3) + valid_freq (demo_args 4 3) - 1)
      / valid_freq (demo_args 4 3) /\
    len (scheduler_steps delta)
    = (n_epochs (demo_args 4 3) + valid_freq (demo_args 4 3) - 1)
      / valid_freq (demo_args 4 3).
Proof.
  apply (X23_number_of_validations 2 (fun _ => NaN) (demo_args 4 3)
           demo_time initial).
  - vm_compute. discriminate.
  - vm_compute. discriminate.
  - vm_compute. reflexivity.
Defined.
